(** * WpCrasher: the touch-pattern crash trigger of tools/WpCrasher/device.c

    A shallow embedding of the routines of device.c
    ([WpCrasherDoBugCheck], [WpCrasherEvtDeviceContextCleanup],
    [WpCrasherEvtInterruptIsr], [WpCrasherOnPowerSettingsChange]) and the
    properties stated about them.

    Conventions.
    - [ULONGLONG] and [ULONG] values are integers of [Z]; the subtractions
      and the increment of the source are written with their wrap-around.
    - [BOOLEAN] values are integers too ([TRUE] is 1, [FALSE] is 0), since
      the source compares them with [==].
    - The device context is passed in and handed back (state passing); calls
      into the kernel are recorded in a list of [host_call].
    - [KeBugCheckEx] does not return: a routine ends with a [completion],
      which is [NeverReturns] on that path.
    - [TraceMessage] only logs and is left out; [NT_ASSERT] is compiled out
      of free builds and is left out too (the bound it asserts is part of the
      invariant [counting] proved below). *)

From Stdlib Require Import ZArith List Bool Lia.
Import ListNotations.
Local Open Scope Z_scope.

(** ** Machine integers *)

Module U64.
Definition modulus : Z := 2 ^ 64.
Definition wrap (z : Z) : Z := z mod modulus.
Definition sub (a b : Z) : Z := wrap (a - b).
End U64.

Module U32.
Definition modulus : Z := 2 ^ 32.
Definition wrap (z : Z) : Z := z mod modulus.
Definition incr (a : Z) : Z := wrap (a + 1).
End U32.

(** ** Kernel types and constants used by device.c *)

Definition BOOLEAN := Z.
Definition TRUE : BOOLEAN := 1.
Definition FALSE : BOOLEAN := 0.

Definition NTSTATUS := Z.
Definition STATUS_SUCCESS : NTSTATUS := 0.
Definition STATUS_INVALID_PARAMETER : NTSTATUS := 0xC000000D.

(** Bug check code of bugcodes.h. *)
Definition MANUALLY_INITIATED_CRASH : Z := 0xE2.

Definition sizeof_ULONG : Z := 4.

(** A GUID, as the four 32-bit words [InlineIsEqualGUID] compares. *)
Definition GUID : Type := (Z * Z * Z * Z)%type.

Definition InlineIsEqualGUID (rguid1 rguid2 : GUID) : bool :=
  let '(a0, a1, a2, a3) := rguid1 in
  let '(b0, b1, b2, b3) := rguid2 in
  (a0 =? b0) && (a1 =? b1) && (a2 =? b2) && (a3 =? b3).

(** GUID_MONITOR_POWER_ON of the power-management headers,
    02731015-4510-4526-99e6-e5a17ebd1aea, little-endian words. *)
Definition GUID_MONITOR_POWER_ON : GUID :=
  (0x02731015, 0x45264510, 0xa1e5e699, 0xea1abd7e).

(** A pointer is [None] when it is NULL. *)
Definition is_NULL {A : Type} (pointer : option A) : bool :=
  match pointer with
  | None => true
  | Some _ => false
  end.

(** Handles of the framework. *)
Definition WDFDEVICE := Z.
Definition WDFINTERRUPT := Z.

(** The constants of device.h. Their values are kept abstract: the routines
    below take them from this class. *)
Class device_h : Type := {
  INPUT_PATTERN_NUM_OF_SWIPES : Z;
  INPUT_PATTERN_MAX_PERIOD : Z;
  SINGLE_SWIPE_MIN_PERIOD : Z;
  SINGLE_SWIPE_MAX_PERIOD : Z;
  SINGLE_SWIPE_MAX_INTERVAL : Z;
  MONITOR_IS_ON : Z
}.

(** One second in the 100 ns ticks of [KeQueryUnbiasedInterruptTime]. *)
Definition SECOND : Z := 10000000.

(** Modelled from the spec: the values of the device.h constants. Section 6
    of the specification gives 4 swipes, 5 s, 0.2 s and 60 s; for
    SINGLE_SWIPE_MAX_PERIOD it gives 10 s there and 15 s where the rest window
    is described, so that value is the argument. The monitor state "on" is
    the value 1 the power manager reports. *)
Definition spec_device_h (swipe_max_period : Z) : device_h := {|
  INPUT_PATTERN_NUM_OF_SWIPES := 4;
  INPUT_PATTERN_MAX_PERIOD := 60 * SECOND;
  SINGLE_SWIPE_MIN_PERIOD := 5 * SECOND;
  SINGLE_SWIPE_MAX_PERIOD := swipe_max_period;
  SINGLE_SWIPE_MAX_INTERVAL := SECOND / 5;
  MONITOR_IS_ON := 1
|}.

(** The constants are positive, ordered as the pattern needs them, and fit
    their C types. *)
Record device_h_sane (h : device_h) : Prop := {
  sane_swipes : 1 <= INPUT_PATTERN_NUM_OF_SWIPES < U32.modulus;
  sane_interval : 0 <= SINGLE_SWIPE_MAX_INTERVAL;
  sane_min : SINGLE_SWIPE_MAX_INTERVAL < SINGLE_SWIPE_MIN_PERIOD;
  sane_max : SINGLE_SWIPE_MIN_PERIOD <= SINGLE_SWIPE_MAX_PERIOD;
  sane_pattern : SINGLE_SWIPE_MAX_PERIOD <= INPUT_PATTERN_MAX_PERIOD;
  sane_range : INPUT_PATTERN_MAX_PERIOD < U64.modulus
}.

(** ** The device context *)

(** Modelled from the spec: the declaration of the structure is in device.h.
    The fields are those device.c reads and writes, typed as section 3 of the
    specification and their uses say: the time stamps are [ULONGLONG] like the
    locals they are subtracted into, NumberOfSwipes is an unsigned 32-bit
    counter (traced with %u), SwipeThreholdReached a [BOOLEAN],
    LastProcessedMonitorState the [ULONG] it is compared with. *)
Record DEVICE_EXTENSION : Type := {
  InterruptObject : WDFINTERRUPT;
  MonitorChangeNotificationHandle : option Z;
  LastProcessedMonitorState : Z;
  TimeStampInputPatternBegin : Z;
  TimeStampSwipeBegin : Z;
  TimeStampLastInterrupt : Z;
  NumberOfSwipes : Z;
  SwipeThreholdReached : BOOLEAN
}.

(** The context as the framework allocates it: all zero. *)
Definition zero_DEVICE_EXTENSION : DEVICE_EXTENSION := {|
  InterruptObject := 0;
  MonitorChangeNotificationHandle := None;
  LastProcessedMonitorState := 0;
  TimeStampInputPatternBegin := 0;
  TimeStampSwipeBegin := 0;
  TimeStampLastInterrupt := 0;
  NumberOfSwipes := 0;
  SwipeThreholdReached := FALSE
|}.

Definition set_MonitorChangeNotificationHandle (v : option Z) (d : DEVICE_EXTENSION) :=
  {| InterruptObject := InterruptObject d;
     MonitorChangeNotificationHandle := v;
     LastProcessedMonitorState := LastProcessedMonitorState d;
     TimeStampInputPatternBegin := TimeStampInputPatternBegin d;
     TimeStampSwipeBegin := TimeStampSwipeBegin d;
     TimeStampLastInterrupt := TimeStampLastInterrupt d;
     NumberOfSwipes := NumberOfSwipes d;
     SwipeThreholdReached := SwipeThreholdReached d |}.

Definition set_LastProcessedMonitorState (v : Z) (d : DEVICE_EXTENSION) :=
  {| InterruptObject := InterruptObject d;
     MonitorChangeNotificationHandle := MonitorChangeNotificationHandle d;
     LastProcessedMonitorState := v;
     TimeStampInputPatternBegin := TimeStampInputPatternBegin d;
     TimeStampSwipeBegin := TimeStampSwipeBegin d;
     TimeStampLastInterrupt := TimeStampLastInterrupt d;
     NumberOfSwipes := NumberOfSwipes d;
     SwipeThreholdReached := SwipeThreholdReached d |}.

Definition set_TimeStampInputPatternBegin (v : Z) (d : DEVICE_EXTENSION) :=
  {| InterruptObject := InterruptObject d;
     MonitorChangeNotificationHandle := MonitorChangeNotificationHandle d;
     LastProcessedMonitorState := LastProcessedMonitorState d;
     TimeStampInputPatternBegin := v;
     TimeStampSwipeBegin := TimeStampSwipeBegin d;
     TimeStampLastInterrupt := TimeStampLastInterrupt d;
     NumberOfSwipes := NumberOfSwipes d;
     SwipeThreholdReached := SwipeThreholdReached d |}.

Definition set_TimeStampSwipeBegin (v : Z) (d : DEVICE_EXTENSION) :=
  {| InterruptObject := InterruptObject d;
     MonitorChangeNotificationHandle := MonitorChangeNotificationHandle d;
     LastProcessedMonitorState := LastProcessedMonitorState d;
     TimeStampInputPatternBegin := TimeStampInputPatternBegin d;
     TimeStampSwipeBegin := v;
     TimeStampLastInterrupt := TimeStampLastInterrupt d;
     NumberOfSwipes := NumberOfSwipes d;
     SwipeThreholdReached := SwipeThreholdReached d |}.

Definition set_TimeStampLastInterrupt (v : Z) (d : DEVICE_EXTENSION) :=
  {| InterruptObject := InterruptObject d;
     MonitorChangeNotificationHandle := MonitorChangeNotificationHandle d;
     LastProcessedMonitorState := LastProcessedMonitorState d;
     TimeStampInputPatternBegin := TimeStampInputPatternBegin d;
     TimeStampSwipeBegin := TimeStampSwipeBegin d;
     TimeStampLastInterrupt := v;
     NumberOfSwipes := NumberOfSwipes d;
     SwipeThreholdReached := SwipeThreholdReached d |}.

Definition set_NumberOfSwipes (v : Z) (d : DEVICE_EXTENSION) :=
  {| InterruptObject := InterruptObject d;
     MonitorChangeNotificationHandle := MonitorChangeNotificationHandle d;
     LastProcessedMonitorState := LastProcessedMonitorState d;
     TimeStampInputPatternBegin := TimeStampInputPatternBegin d;
     TimeStampSwipeBegin := TimeStampSwipeBegin d;
     TimeStampLastInterrupt := TimeStampLastInterrupt d;
     NumberOfSwipes := v;
     SwipeThreholdReached := SwipeThreholdReached d |}.

Definition set_SwipeThreholdReached (v : BOOLEAN) (d : DEVICE_EXTENSION) :=
  {| InterruptObject := InterruptObject d;
     MonitorChangeNotificationHandle := MonitorChangeNotificationHandle d;
     LastProcessedMonitorState := LastProcessedMonitorState d;
     TimeStampInputPatternBegin := TimeStampInputPatternBegin d;
     TimeStampSwipeBegin := TimeStampSwipeBegin d;
     TimeStampLastInterrupt := TimeStampLastInterrupt d;
     NumberOfSwipes := NumberOfSwipes d;
     SwipeThreholdReached := v |}.

(** ** Calls into the kernel and how a routine ends *)

Inductive host_call : Type :=
| debugbreak
| KeBugCheckEx (BugCheckCode P1 P2 P3 P4 : Z)
| WdfInterruptReportActive (Interrupt : WDFINTERRUPT)
| WdfInterruptReportInactive (Interrupt : WDFINTERRUPT)
| PoUnregisterPowerSettingCallback (Handle : Z).

Inductive completion (A : Type) : Type :=
| Returns (ret : A)
| NeverReturns.
Arguments Returns {A} ret.
Arguments NeverReturns {A}.

(** What one run of the interrupt routine leaves behind. *)
Record isr_run : Type := {
  isr_context : DEVICE_EXTENSION;
  isr_calls : list host_call;
  isr_result : completion BOOLEAN
}.

Definition Exit (devContext : DEVICE_EXTENSION) : isr_run :=
  {| isr_context := devContext; isr_calls := []; isr_result := Returns FALSE |}.

(** ** WpCrasherDoBugCheck *)

(** C's [!]. *)
Definition lnot (expr : Z) : Z := if expr =? 0 then 1 else 0.

Definition BOOLIFY (expr : Z) : Z := lnot (lnot expr).

Definition IS_DEBUGGER_ATTACHED (KD_DEBUGGER_NOT_PRESENT : Z) : BOOLEAN :=
  if BOOLIFY KD_DEBUGGER_NOT_PRESENT =? FALSE then TRUE else FALSE.

Definition WpCrasherDoBugCheck (KD_DEBUGGER_NOT_PRESENT : Z)
  : list host_call * completion unit :=
  if negb (IS_DEBUGGER_ATTACHED KD_DEBUGGER_NOT_PRESENT =? FALSE) then
    ([debugbreak], Returns tt)
  else
    ([KeBugCheckEx MANUALLY_INITIATED_CRASH 1 0 0 0], NeverReturns).

(** ** WpCrasherEvtDeviceContextCleanup *)

Definition WpCrasherEvtDeviceContextCleanup (devContext : DEVICE_EXTENSION)
  : DEVICE_EXTENSION * list host_call :=
  match MonitorChangeNotificationHandle devContext with
  | Some handle =>
      (set_MonitorChangeNotificationHandle None devContext,
       [PoUnregisterPowerSettingCallback handle])
  | None => (devContext, [])
  end.

Section Routines.
Context {h : device_h}.

(** ** WpCrasherEvtInterruptIsr *)

(** Lines 247-283: from the swipe-duration check to the end, entered with
    the local [swippingTime] as the boundary test left it. *)
Definition Isr_count_swipe (KD_DEBUGGER_NOT_PRESENT : Z)
    (devContext : DEVICE_EXTENSION) (swippingTime : Z) : isr_run :=
  if swippingTime >? SINGLE_SWIPE_MAX_PERIOD then
    Exit (set_TimeStampInputPatternBegin 0 devContext)
  else if (swippingTime <? SINGLE_SWIPE_MIN_PERIOD)
          || (SwipeThreholdReached devContext =? TRUE) then
    Exit devContext
  else
    let devContext :=
      set_NumberOfSwipes (U32.incr (NumberOfSwipes devContext)) devContext in
    let devContext := set_SwipeThreholdReached TRUE devContext in
    if NumberOfSwipes devContext =? INPUT_PATTERN_NUM_OF_SWIPES then
      match WpCrasherDoBugCheck KD_DEBUGGER_NOT_PRESENT with
      | (calls, Returns _) =>
          {| isr_context := set_TimeStampInputPatternBegin 0 devContext;
             isr_calls := calls;
             isr_result := Returns FALSE |}
      | (calls, NeverReturns) =>
          {| isr_context := devContext;
             isr_calls := calls;
             isr_result := NeverReturns |}
      end
    else
      Exit devContext.

(** The routine. [currentTime] is what [KeQueryUnbiasedInterruptTime]
    returned, [KD_DEBUGGER_NOT_PRESENT] the kernel flag as the routine
    would read it, [devContext] the context of the interrupt's device. *)
Definition WpCrasherEvtInterruptIsr (currentTime KD_DEBUGGER_NOT_PRESENT : Z)
    (devContext : DEVICE_EXTENSION) : isr_run :=
  if TimeStampInputPatternBegin devContext =? 0 then
    Exit (set_SwipeThreholdReached FALSE
           (set_NumberOfSwipes 0
             (set_TimeStampLastInterrupt currentTime
               (set_TimeStampSwipeBegin currentTime
                 (set_TimeStampInputPatternBegin currentTime devContext)))))
  else if U64.sub currentTime (TimeStampInputPatternBegin devContext)
          >? INPUT_PATTERN_MAX_PERIOD then
    Exit (set_TimeStampInputPatternBegin 0 devContext)
  else
    let stoppedTime :=
      U64.sub currentTime (TimeStampLastInterrupt devContext) in
    let swippingTime :=
      U64.sub (TimeStampLastInterrupt devContext)
              (TimeStampSwipeBegin devContext) in
    let devContext := set_TimeStampLastInterrupt currentTime devContext in
    if stoppedTime >? SINGLE_SWIPE_MAX_INTERVAL then
      if (stoppedTime <? SINGLE_SWIPE_MIN_PERIOD)
         || (stoppedTime >? SINGLE_SWIPE_MAX_PERIOD) then
        Exit (set_TimeStampInputPatternBegin 0 devContext)
      else
        let devContext := set_TimeStampSwipeBegin currentTime devContext in
        let swippingTime := 0 in
        let devContext := set_SwipeThreholdReached FALSE devContext in
        Isr_count_swipe KD_DEBUGGER_NOT_PRESENT devContext swippingTime
    else
      Isr_count_swipe KD_DEBUGGER_NOT_PRESENT devContext swippingTime.

(** ** WpCrasherOnPowerSettingsChange *)

(** [Value] is the [ULONG] the pointer designates, [None] for a null
    pointer; [CbContext] the device handle, [None] for a null pointer;
    [GetDeviceContext] the context memory of each device. *)
Definition WpCrasherOnPowerSettingsChange
    (SettingGuid : GUID) (Value : option Z) (ValueLength : Z)
    (CbContext : option WDFDEVICE)
    (GetDeviceContext : WDFDEVICE -> DEVICE_EXTENSION)
  : NTSTATUS * (WDFDEVICE -> DEVICE_EXTENSION) * list host_call :=
  if negb (InlineIsEqualGUID SettingGuid GUID_MONITOR_POWER_ON) then
    (STATUS_SUCCESS, GetDeviceContext, [])
  else if is_NULL Value || negb (ValueLength =? sizeof_ULONG)
          || is_NULL CbContext then
    (STATUS_INVALID_PARAMETER, GetDeviceContext, [])
  else
    match Value, CbContext with
    | Some monitorState, Some fxDevice =>
        let devContext := GetDeviceContext fxDevice in
        if LastProcessedMonitorState devContext =? monitorState then
          (STATUS_SUCCESS, GetDeviceContext, [])
        else
          let devContext :=
            set_LastProcessedMonitorState monitorState devContext in
          let memory := fun d =>
            if d =? fxDevice then devContext else GetDeviceContext d in
          if monitorState =? MONITOR_IS_ON then
            (STATUS_SUCCESS, memory,
             [WdfInterruptReportActive (InterruptObject devContext)])
          else
            (STATUS_SUCCESS, memory,
             [WdfInterruptReportInactive (InterruptObject devContext)])
    | _, _ =>
        (* not reached: both pointers passed the test above *)
        (STATUS_INVALID_PARAMETER, GetDeviceContext, [])
    end.

End Routines.

(** ** Delivering a sequence of interrupts *)

(** One interrupt as the routine sees it: the time it reads and the debugger
    flag it would read. *)
Record interrupt : Type := {
  KeQueryUnbiasedInterruptTime : Z;
  KD_DEBUGGER_NOT_PRESENT : Z
}.

Definition at_time (KD_DEBUGGER_NOT_PRESENT currentTime : Z) : interrupt :=
  {| KeQueryUnbiasedInterruptTime := currentTime;
     KD_DEBUGGER_NOT_PRESENT := KD_DEBUGGER_NOT_PRESENT |}.

Section Delivery.
Context {h : device_h}.

Definition isr (i : interrupt) (devContext : DEVICE_EXTENSION) : isr_run :=
  WpCrasherEvtInterruptIsr (KeQueryUnbiasedInterruptTime i)
                           (KD_DEBUGGER_NOT_PRESENT i) devContext.

(** The runs of the routine on the interrupts in turn, each on the context
    the one before left. Nothing runs after a bug check. *)
Fixpoint deliver (interrupts : list interrupt) (devContext : DEVICE_EXTENSION)
  : list isr_run :=
  match interrupts with
  | [] => []
  | i :: rest =>
      let r := isr i devContext in
      r :: match isr_result r with
           | Returns _ => deliver rest (isr_context r)
           | NeverReturns => []
           end
  end.

(** The context after the last run, the starting one if there was none. *)
Definition final_context (devContext : DEVICE_EXTENSION) (runs : list isr_run)
  : DEVICE_EXTENSION :=
  last (map isr_context runs) devContext.

End Delivery.

(** ** Touch patterns *)

Abbreviation time := KeQueryUnbiasedInterruptTime.

(** A swipe is the list of its interrupts, first one first. *)
Definition swipe : Type := list interrupt.

Definition first_time (s : swipe) : Z :=
  match s with
  | [] => 0
  | f :: _ => time f
  end.

(** Time of the last interrupt of [body], [prev] when it is empty. *)
Definition last_time (prev : Z) (body : list interrupt) : Z :=
  last (map time body) prev.

(** Successive interrupts never go back in time and are at most [interval]
    apart, starting from the time [prev]. *)
Fixpoint gapsb (interval prev : Z) (body : list interrupt) : bool :=
  match body with
  | [] => true
  | e :: rest =>
      (prev <=? time e) && (time e - prev <=? interval)
      && gapsb interval (time e) rest
  end.

(** A run that made no call into the kernel and returned FALSE. *)
Definition quiet (r : isr_run) : Prop :=
  isr_calls r = [] /\ isr_result r = Returns FALSE.

(** *** The pattern as the specification words it *)

(** Interrupts at most 0.2 s apart that span strictly more than 5 s and
    strictly less than 10 s. *)
Definition claimed_swipe (s : swipe) : bool :=
  match s with
  | [] => false
  | f :: body =>
      let span := last_time (time f) body - time f in
      gapsb (SECOND / 5) (time f) body
      && (5 * SECOND <? span) && (span <? 10 * SECOND)
  end.

(** A rest strictly between 5 s and 15 s from the end of [s] to the start of
    [next]. *)
Definition claimed_rest (s next : swipe) : bool :=
  let gap := first_time next - last_time 0 s in
  (5 * SECOND <? gap) && (gap <? 15 * SECOND).

Definition claimed_pattern (s1 s2 s3 s4 : swipe) : bool :=
  claimed_swipe s1 && claimed_swipe s2 && claimed_swipe s3 && claimed_swipe s4
  && claimed_rest s1 s2 && claimed_rest s2 s3 && claimed_rest s3 s4
  && (last_time 0 s4 - first_time s1 <=? 60 * SECOND).

Section Patterns.
Context {h : device_h}.

(** *** The pattern as the routine counts it

    On each interrupt the routine measures the swipe up to the interrupt
    before it ([prev]), so a swipe is counted on the interrupt that follows
    the first one lying SINGLE_SWIPE_MIN_PERIOD or more after the swipe's
    start [begin]. *)

(** Some interrupt of [body] finds the swipe long enough. *)
Fixpoint countedb (begin prev : Z) (body : list interrupt) : bool :=
  match body with
  | [] => false
  | e :: rest =>
      (SINGLE_SWIPE_MIN_PERIOD <=? prev - begin)
      || countedb begin (time e) rest
  end.

(** Position in [body] of the first interrupt that finds the swipe long
    enough. *)
Fixpoint count_index (begin prev : Z) (body : list interrupt) : nat :=
  match body with
  | [] => O
  | e :: rest =>
      if SINGLE_SWIPE_MIN_PERIOD <=? prev - begin then O
      else S (count_index begin (time e) rest)
  end.

(** No interrupt of [body] finds the swipe longer than
    SINGLE_SWIPE_MAX_PERIOD. *)
Fixpoint boundedb (begin prev : Z) (body : list interrupt) : bool :=
  match body with
  | [] => true
  | e :: rest =>
      (prev - begin <=? SINGLE_SWIPE_MAX_PERIOD)
      && boundedb begin (time e) rest
  end.

(** Every interrupt lies in the pattern period that began at [begin]. *)
Definition withinb (begin : Z) (body : list interrupt) : bool :=
  forallb (fun e => (begin <=? time e)
                    && (time e - begin <=? INPUT_PATTERN_MAX_PERIOD)) body.

Definition counted_swipe (s : swipe) : bool :=
  match s with
  | [] => false
  | f :: body =>
      gapsb SINGLE_SWIPE_MAX_INTERVAL (time f) body
      && countedb (time f) (time f) body
      && boundedb (time f) (time f) body
  end.

(** Position in the swipe of the interrupt that counts it. *)
Definition counting_index (s : swipe) : nat :=
  match s with
  | [] => O
  | f :: body => S (count_index (time f) (time f) body)
  end.

(** A rest within [SINGLE_SWIPE_MIN_PERIOD, SINGLE_SWIPE_MAX_PERIOD]. *)
Definition counted_rest (s next : swipe) : bool :=
  let gap := first_time next - last_time 0 s in
  (SINGLE_SWIPE_MIN_PERIOD <=? gap) && (gap <=? SINGLE_SWIPE_MAX_PERIOD).

Definition counted_pattern (s1 s2 s3 s4 : swipe) : bool :=
  negb (first_time s1 =? 0)
  && counted_swipe s1 && counted_swipe s2
  && counted_swipe s3 && counted_swipe s4
  && counted_rest s1 s2 && counted_rest s2 s3 && counted_rest s3 s4
  && withinb (first_time s1) (s1 ++ s2 ++ s3 ++ s4).

End Patterns.

(** *** Sample touches *)

(** [n] interrupts, [step] apart, the first at [start]. *)
Definition stroke (kd start step : Z) (n : nat) : swipe :=
  map (fun i => at_time kd (start + step * Z.of_nat i)) (seq 0 n).

(** A swipe of 30 interrupts 0.2 s apart: 5.8 s long. *)
Definition long_swipe (kd start : Z) : swipe :=
  stroke kd start (SECOND / 5) 30.

(** A swipe of 5.1 s whose last interrupt but one is at 4.95 s. *)
Definition short_swipe (kd start : Z) : swipe :=
  stroke kd start (SECOND / 5) 25
  ++ [at_time kd (start + 4 * SECOND + 95 * (SECOND / 100));
      at_time kd (start + 5 * SECOND + SECOND / 10)].

(** ** Predicates on contexts and runs *)

(** The timing fields and the counters of a context. *)
Definition tracking (d : DEVICE_EXTENSION) (p f l c b : Z) : Prop :=
  TimeStampInputPatternBegin d = p
  /\ TimeStampSwipeBegin d = f
  /\ TimeStampLastInterrupt d = l
  /\ NumberOfSwipes d = c
  /\ SwipeThreholdReached d = b.

(** A run that reached WpCrasherDoBugCheck, in either of its two ways: the
    breakpoint, after which the routine clears TimeStampInputPatternBegin and
    returns FALSE, or the bug check, after which nothing runs. *)
Definition completed (kd : Z) (r : isr_run) : Prop :=
  (IS_DEBUGGER_ATTACHED kd = TRUE
   /\ isr_calls r = [debugbreak]
   /\ isr_result r = Returns FALSE
   /\ TimeStampInputPatternBegin (isr_context r) = 0)
  \/
  (IS_DEBUGGER_ATTACHED kd = FALSE
   /\ isr_calls r = [KeBugCheckEx MANUALLY_INITIATED_CRASH 1 0 0 0]
   /\ isr_result r = NeverReturns).

Section Invariants.
Context {h : device_h}.

(** The invariant of NumberOfSwipes: within bounds, and below the number
    of swipes of the pattern while a pattern is being recorded. *)
Definition counting (d : DEVICE_EXTENSION) : Prop :=
  0 <= NumberOfSwipes d <= INPUT_PATTERN_NUM_OF_SWIPES
  /\ (TimeStampInputPatternBegin d <> 0 ->
      NumberOfSwipes d < INPUT_PATTERN_NUM_OF_SWIPES).

(** A context that is idle, or recording a pattern that restarted within
    the current swipe: [prev] was the last interrupt and at most one swipe
    has been counted. *)
Definition restarted (d : DEVICE_EXTENSION) (prev : Z) : Prop :=
  TimeStampInputPatternBegin d = 0
  \/ (TimeStampLastInterrupt d = prev
      /\ ((NumberOfSwipes d = 0 /\ SwipeThreholdReached d = FALSE)
          \/ (NumberOfSwipes d = 1 /\ SwipeThreholdReached d = TRUE))).

End Invariants.

(** Four swipes made by [mk], the first at 1 s, each 7 s after the end of the
    one before. *)
Fixpoint nth_swipe (mk : Z -> Z -> swipe) (kd : Z) (n : nat) : swipe :=
  match n with
  | O => mk kd SECOND
  | S m => mk kd (last_time 0 (nth_swipe mk kd m) + 7 * SECOND)
  end.

Definition four_swipes (mk : Z -> Z -> swipe) (kd : Z) : list interrupt :=
  nth_swipe mk kd 0 ++ nth_swipe mk kd 1
  ++ nth_swipe mk kd 2 ++ nth_swipe mk kd 3.

(** The constants with SINGLE_SWIPE_MAX_PERIOD at 10 s and at 15 s. *)
Definition device_h_10s : device_h := spec_device_h (10 * SECOND).
Definition device_h_15s : device_h := spec_device_h (15 * SECOND).

(** A context recording a swipe that began with the pattern at 1 s, its last
    interrupt at 6 s, not counted yet. *)
Definition swiping_context : DEVICE_EXTENSION :=
  set_TimeStampLastInterrupt (6 * SECOND)
    (set_TimeStampSwipeBegin SECOND
      (set_TimeStampInputPatternBegin SECOND zero_DEVICE_EXTENSION)).

(** A context resting after a first counted swipe: pattern and swipe began
    at 1 s, the last interrupt was at 6 s, one swipe counted. *)
Definition rested_context : DEVICE_EXTENSION :=
  set_SwipeThreholdReached TRUE
    (set_NumberOfSwipes 1 swiping_context).

(** The memory in which every device context is zero, and an "on"
    notification for device 7 with the constants of [device_h_10s]. *)
Definition zero_memory : WDFDEVICE -> DEVICE_EXTENSION :=
  fun _ => zero_DEVICE_EXTENSION.

Definition notify_on (memory : WDFDEVICE -> DEVICE_EXTENSION)
  : NTSTATUS * (WDFDEVICE -> DEVICE_EXTENSION) * list host_call :=
  @WpCrasherOnPowerSettingsChange device_h_10s GUID_MONITOR_POWER_ON (Some 1)
    sizeof_ULONG (Some 7) memory.

Definition memory_after
    (r : NTSTATUS * (WDFDEVICE -> DEVICE_EXTENSION) * list host_call)
  : WDFDEVICE -> DEVICE_EXTENSION := snd (fst r).

Definition calls_of
    (r : NTSTATUS * (WDFDEVICE -> DEVICE_EXTENSION) * list host_call)
  : list host_call := snd r.

(** ** Frames, monotone time and notification sequences *)



(** Interrupt times that never go back, starting from [prev], and fit a
    [ULONGLONG]. *)
Fixpoint monotoneb (prev : Z) (interrupts : list interrupt) : bool :=
  match interrupts with
  | [] => true
  | e :: rest =>
      (prev <=? time e) && (time e <? U64.modulus) && monotoneb (time e) rest
  end.

(** One call of the power callback with its four arguments. *)
Record notification : Type := {
  notified_SettingGuid : GUID;
  notified_Value : option Z;
  notified_ValueLength : Z;
  notified_CbContext : option WDFDEVICE
}.

Definition is_active (c : host_call) : bool :=
  match c with
  | WdfInterruptReportActive _ => true
  | _ => false
  end.

(** No WdfInterruptReportActive directly follows another one;
    [after_active] tells whether the call before the list was one. *)
Fixpoint no_double_active (after_active : bool) (calls : list host_call)
  : bool :=
  match calls with
  | [] => true
  | c :: rest =>
      negb (after_active && is_active c) && no_double_active (is_active c) rest
  end.

(** Whether the interrupt is reported active once [calls] have been made,
    [active] being its state before them. *)
Fixpoint reported (active : bool) (calls : list host_call) : bool :=
  match calls with
  | [] => active
  | WdfInterruptReportActive _ :: rest => reported true rest
  | WdfInterruptReportInactive _ :: rest => reported false rest
  | _ :: rest => reported active rest
  end.

Section Notifications.
Context {h : device_h}.

Definition notify (n : notification)
    (memory : WDFDEVICE -> DEVICE_EXTENSION)
  : NTSTATUS * (WDFDEVICE -> DEVICE_EXTENSION) * list host_call :=
  WpCrasherOnPowerSettingsChange (notified_SettingGuid n) (notified_Value n)
    (notified_ValueLength n) (notified_CbContext n) memory.

(** The callback on the notifications in turn: the memory left and the
    calls made, in order. *)
Fixpoint notify_all (ns : list notification)
    (memory : WDFDEVICE -> DEVICE_EXTENSION)
  : (WDFDEVICE -> DEVICE_EXTENSION) * list host_call :=
  match ns with
  | [] => (memory, [])
  | n :: rest =>
      let '(_, memory1, calls1) := notify n memory in
      let '(memory2, calls2) := notify_all rest memory1 in
      (memory2, calls1 ++ calls2)
  end.

(** A notification the callback reads the monitor state of: the monitor
    GUID with a value of the right size and a context. *)
Definition well_formed (n : notification) : bool :=
  InlineIsEqualGUID (notified_SettingGuid n) GUID_MONITOR_POWER_ON
  && negb (is_NULL (notified_Value n)
           || negb (notified_ValueLength n =? sizeof_ULONG)
           || is_NULL (notified_CbContext n)).

(** The pace of a pattern being recorded since [start], [prev] the time of
    the last interrupt: every counted swipe took SINGLE_SWIPE_MIN_PERIOD and
    every swipe begun after another a rest of the same length. *)
Definition paced (start prev : Z) (d : DEVICE_EXTENSION) : Prop :=
  TimeStampInputPatternBegin d = 0
  \/ (0 < TimeStampInputPatternBegin d
      /\ start <= TimeStampInputPatternBegin d
      /\ TimeStampInputPatternBegin d <= TimeStampSwipeBegin d
      /\ TimeStampSwipeBegin d <= TimeStampLastInterrupt d
      /\ TimeStampLastInterrupt d = prev
      /\ 0 <= NumberOfSwipes d < INPUT_PATTERN_NUM_OF_SWIPES
      /\ (SwipeThreholdReached d <> TRUE ->
          2 * NumberOfSwipes d * SINGLE_SWIPE_MIN_PERIOD
          <= TimeStampSwipeBegin d - TimeStampInputPatternBegin d)
      /\ (SwipeThreholdReached d = TRUE ->
          1 <= NumberOfSwipes d
          /\ 2 * (NumberOfSwipes d - 1) * SINGLE_SWIPE_MIN_PERIOD
             <= TimeStampSwipeBegin d - TimeStampInputPatternBegin d
          /\ SINGLE_SWIPE_MIN_PERIOD
             <= TimeStampLastInterrupt d - TimeStampSwipeBegin d)).

End Notifications.

(** A touch of 80 s, interrupts 0.2 s apart. *)
Definition long_touch : list interrupt := stroke 0 SECOND (SECOND / 5) 401.

(** "On", "on" again, a foreign GUID with null pointers, "off", a value of
    the wrong size, "on": notifications for device 7. *)
Definition sample_notifications : list notification :=
  [ {| notified_SettingGuid := GUID_MONITOR_POWER_ON;
       notified_Value := Some 1; notified_ValueLength := 4;
       notified_CbContext := Some 7 |};
    {| notified_SettingGuid := GUID_MONITOR_POWER_ON;
       notified_Value := Some 1; notified_ValueLength := 4;
       notified_CbContext := Some 7 |};
    {| notified_SettingGuid := (0, 0, 0, 0);
       notified_Value := None; notified_ValueLength := 0;
       notified_CbContext := None |};
    {| notified_SettingGuid := GUID_MONITOR_POWER_ON;
       notified_Value := Some 0; notified_ValueLength := 4;
       notified_CbContext := Some 7 |};
    {| notified_SettingGuid := GUID_MONITOR_POWER_ON;
       notified_Value := Some 1; notified_ValueLength := 8;
       notified_CbContext := Some 7 |};
    {| notified_SettingGuid := GUID_MONITOR_POWER_ON;
       notified_Value := Some 1; notified_ValueLength := 4;
       notified_CbContext := Some 7 |} ].

(** Constants whose pattern period, 30 s, is shorter than the 35 s that four
    swipes of 5 s and three rests of 5 s take. *)
Definition device_h_short_period : device_h := {|
  INPUT_PATTERN_NUM_OF_SWIPES := 4;
  INPUT_PATTERN_MAX_PERIOD := 30 * SECOND;
  SINGLE_SWIPE_MIN_PERIOD := 5 * SECOND;
  SINGLE_SWIPE_MAX_PERIOD := 15 * SECOND;
  SINGLE_SWIPE_MAX_INTERVAL := SECOND / 5;
  MONITOR_IS_ON := 1
|}.

(** ** Proof support *)

Lemma U64_sub_exact (a b : Z) :
  0 <= a - b < U64.modulus -> U64.sub a b = a - b.
Proof. intros H. unfold U64.sub, U64.wrap. now apply Z.mod_small. Qed.

Lemma U32_incr_exact (a : Z) :
  0 <= a < U32.modulus - 1 -> U32.incr a = a + 1.
Proof.
  unfold U32.incr, U32.wrap, U32.modulus. intros H. apply Z.mod_small. lia.
Qed.


Lemma InlineIsEqualGUID_spec (a b : GUID) :
  InlineIsEqualGUID a b = true <-> a = b.
Proof.
  destruct a as [[[a0 a1] a2] a3], b as [[[b0 b1] b2] b3]; simpl.
  rewrite !andb_true_iff, !Z.eqb_eq. split.
  - intros [[[-> ->] ->] ->]. reflexivity.
  - intros E. injection E as -> -> -> ->. auto.
Qed.

Lemma InlineIsEqualGUID_neq (a b : GUID) :
  InlineIsEqualGUID a b = false <-> a <> b.
Proof.
  rewrite <- InlineIsEqualGUID_spec. destruct (InlineIsEqualGUID a b); split;
    congruence.
Qed.

Lemma IS_DEBUGGER_ATTACHED_zero (kd : Z) :
  kd = 0 -> IS_DEBUGGER_ATTACHED kd = TRUE.
Proof. intros ->. reflexivity. Qed.

Lemma IS_DEBUGGER_ATTACHED_nonzero (kd : Z) :
  kd <> 0 -> IS_DEBUGGER_ATTACHED kd = FALSE.
Proof.
  intros H. unfold IS_DEBUGGER_ATTACHED, BOOLIFY, lnot.
  destruct (kd =? 0) eqn:E; [apply Z.eqb_eq in E; contradiction|reflexivity].
Qed.

Lemma WpCrasherDoBugCheck_attached (kd : Z) :
  kd = 0 -> WpCrasherDoBugCheck kd = ([debugbreak], Returns tt).
Proof. intros ->. reflexivity. Qed.

Lemma WpCrasherDoBugCheck_detached (kd : Z) :
  kd <> 0 ->
  WpCrasherDoBugCheck kd =
  ([KeBugCheckEx MANUALLY_INITIATED_CRASH 1 0 0 0], NeverReturns).
Proof.
  intros H. unfold WpCrasherDoBugCheck.
  now rewrite (IS_DEBUGGER_ATTACHED_nonzero kd H).
Qed.

Lemma WpCrasherDoBugCheck_cases (kd : Z) :
  (kd = 0 /\ IS_DEBUGGER_ATTACHED kd = TRUE /\
   WpCrasherDoBugCheck kd = ([debugbreak], Returns tt))
  \/
  (kd <> 0 /\ IS_DEBUGGER_ATTACHED kd = FALSE /\
   WpCrasherDoBugCheck kd =
   ([KeBugCheckEx MANUALLY_INITIATED_CRASH 1 0 0 0], NeverReturns)).
Proof.
  destruct (Z.eq_dec kd 0) as [E|E].
  - left. auto using IS_DEBUGGER_ATTACHED_zero, WpCrasherDoBugCheck_attached.
  - right.
    auto using IS_DEBUGGER_ATTACHED_nonzero, WpCrasherDoBugCheck_detached.
Qed.

(** Turns the boolean tests of the routines, once in the context, into
    arithmetic facts. *)
Ltac tests_to_facts :=
  repeat match goal with
    | H : (_ || _) = true |- _ => apply orb_true_iff in H
    | H : (_ || _) = false |- _ => apply orb_false_iff in H; destruct H
    | H : (_ && _) = true |- _ => apply andb_true_iff in H; destruct H
    | H : (_ && _) = false |- _ => apply andb_false_iff in H
    | H : negb _ = true |- _ => apply negb_true_iff in H
    | H : negb _ = false |- _ => apply negb_false_iff in H
    | H : (_ >? _) = _ |- _ => rewrite Z.gtb_ltb in H
    | H : (_ <=? _) = true |- _ => apply Z.leb_le in H
    | H : (_ <=? _) = false |- _ => apply Z.leb_gt in H
    | H : (_ <? _) = true |- _ => apply Z.ltb_lt in H
    | H : (_ <? _) = false |- _ => apply Z.ltb_ge in H
    | H : (_ =? _) = true |- _ => apply Z.eqb_eq in H
    | H : (_ =? _) = false |- _ => apply Z.eqb_neq in H
    end.

(** Splits on every test a goal still branches on. *)
Ltac split_tests :=
  repeat match goal with
    | |- context [if ?b then _ else _] => destruct b eqn:?
    end.

(** * The Fatal-Stop Trigger *)

(** C3. WpCrasherDoBugCheck reads the debugger flag and takes exactly one of
    two branches: with a debugger attached (flag 0) its only call is the
    breakpoint and it returns; with none attached its only call is
    KeBugCheckEx with MANUALLY_INITIATED_CRASH and the parameters 1, 0, 0, 0,
    and it does not return. *)
Theorem C3_trigger_branches (kd : Z) :
  (kd = 0 /\ IS_DEBUGGER_ATTACHED kd = TRUE /\
   WpCrasherDoBugCheck kd = ([debugbreak], Returns tt))
  \/
  (kd <> 0 /\ IS_DEBUGGER_ATTACHED kd = FALSE /\
   WpCrasherDoBugCheck kd =
   ([KeBugCheckEx MANUALLY_INITIATED_CRASH 1 0 0 0], NeverReturns)).
Proof.
  destruct (Z.eq_dec kd 0) as [E|E]; [left|right]; repeat split;
    auto using IS_DEBUGGER_ATTACHED_zero, WpCrasherDoBugCheck_attached,
      IS_DEBUGGER_ATTACHED_nonzero, WpCrasherDoBugCheck_detached.
Qed.

(** * The Power-State Gate *)

Section PowerGate.
Context {h : device_h}.

(** C10. A notification for another setting returns success, leaves every
    device context as it was and makes no call, whatever the value pointer,
    the length and the context are: the GUID is tested first. *)
Theorem C10_other_setting_ignored
    (SettingGuid : GUID) (Value : option Z) (ValueLength : Z)
    (CbContext : option WDFDEVICE)
    (GetDeviceContext : WDFDEVICE -> DEVICE_EXTENSION) :
  SettingGuid <> GUID_MONITOR_POWER_ON ->
  WpCrasherOnPowerSettingsChange SettingGuid Value ValueLength CbContext
    GetDeviceContext
  = (STATUS_SUCCESS, GetDeviceContext, []).
Proof.
  intros Hne. apply InlineIsEqualGUID_neq in Hne.
  unfold WpCrasherOnPowerSettingsChange. now rewrite Hne.
Qed.

(** C4. For the monitor-power setting the routine returns
    STATUS_INVALID_PARAMETER exactly when the value pointer is null, the
    length is not sizeof(ULONG) or the context is null, and then it makes no
    call and leaves every device context as it was. *)
Theorem C4_invalid_parameter
    (Value : option Z) (ValueLength : Z) (CbContext : option WDFDEVICE)
    (GetDeviceContext : WDFDEVICE -> DEVICE_EXTENSION) :
  let '(status, memory, calls) :=
    WpCrasherOnPowerSettingsChange GUID_MONITOR_POWER_ON Value ValueLength
      CbContext GetDeviceContext in
  (status = STATUS_INVALID_PARAMETER <->
   Value = None \/ ValueLength <> sizeof_ULONG \/ CbContext = None)
  /\ (status = STATUS_INVALID_PARAMETER ->
      memory = GetDeviceContext /\ calls = []).
Proof.
  unfold WpCrasherOnPowerSettingsChange.
  replace (InlineIsEqualGUID GUID_MONITOR_POWER_ON GUID_MONITOR_POWER_ON)
    with true by reflexivity.
  cbn [negb].
  assert (Hok : STATUS_SUCCESS <> STATUS_INVALID_PARAMETER) by discriminate.
  destruct Value as [monitorState|], CbContext as [fxDevice|];
    cbn [is_NULL orb]; rewrite ?orb_true_r, ?orb_false_r;
    try (split; [split; auto|auto]).
  destruct (ValueLength =? sizeof_ULONG) eqn:El; cbn [negb]; tests_to_facts.
  - split_tests; (split; [split|]); intros H'; try contradiction;
      destruct H' as [H'|[H'|H']]; congruence.
  - split; [split|]; auto.
Qed.

End PowerGate.

Section PowerGateRepeats.
Context {h : device_h}.

(** C5 (amended). Of two consecutive valid notifications with the same
    monitor state the second returns success, makes no call and leaves the
    memory as the first left it. The first makes one call (activate for
    MONITOR_IS_ON, deactivate otherwise) when the state differs from
    LastProcessedMonitorState, and none when it is the same state again: the
    pair makes at most one call. *)
Theorem C5_repeated_state_is_noop
    (monitorState : Z) (fxDevice : WDFDEVICE)
    (GetDeviceContext : WDFDEVICE -> DEVICE_EXTENSION) :
  let notify :=
    WpCrasherOnPowerSettingsChange GUID_MONITOR_POWER_ON (Some monitorState)
      sizeof_ULONG (Some fxDevice) in
  let before := GetDeviceContext fxDevice in
  let '(status1, memory1, calls1) := notify GetDeviceContext in
  notify memory1 = (STATUS_SUCCESS, memory1, [])
  /\ status1 = STATUS_SUCCESS
  /\ LastProcessedMonitorState (memory1 fxDevice) = monitorState
  /\ (LastProcessedMonitorState before = monitorState ->
      calls1 = [] /\ memory1 = GetDeviceContext)
  /\ (LastProcessedMonitorState before <> monitorState ->
      calls1 = [if monitorState =? MONITOR_IS_ON
                then WdfInterruptReportActive (InterruptObject before)
                else WdfInterruptReportInactive (InterruptObject before)]).
Proof.
  cbv zeta. unfold WpCrasherOnPowerSettingsChange.
  replace (InlineIsEqualGUID GUID_MONITOR_POWER_ON GUID_MONITOR_POWER_ON)
    with true by reflexivity.
  rewrite Z.eqb_refl. cbn [is_NULL negb orb].
  destruct (LastProcessedMonitorState (GetDeviceContext fxDevice)
            =? monitorState) eqn:Esame; tests_to_facts.
  - rewrite (proj2 (Z.eqb_eq _ _) Esame). repeat split; auto. contradiction.
  - destruct (monitorState =? MONITOR_IS_ON) eqn:Eon;
      rewrite !Z.eqb_refl;
      cbn [LastProcessedMonitorState set_LastProcessedMonitorState
           InterruptObject];
      repeat split; auto; contradiction.
Qed.

End PowerGateRepeats.

(** C5: the claim as stated (exactly one call for every such pair) fails when
    the state was already processed. After one "on" notification two more
    make no call at all. *)
Lemma C5_counterexample_already_processed :
  calls_of (notify_on zero_memory) = [WdfInterruptReportActive 0]
  /\ length
       (calls_of (notify_on (memory_after (notify_on zero_memory)))
        ++ calls_of (notify_on
             (memory_after
                (notify_on (memory_after (notify_on zero_memory))))))
     <> 1%nat.
Proof. cbn. split; [reflexivity|discriminate]. Qed.

(** * The interrupt routine, one call *)

Section OneInterrupt.
Context {h : device_h}.

Implicit Types (currentTime kd : Z) (devContext : DEVICE_EXTENSION).


(** C9. Whatever path a call takes, if it returns it returns FALSE; the one
    path on which it does not return is the completed pattern with no
    debugger attached, which ends in KeBugCheckEx. *)
Theorem C9_never_claimed currentTime kd devContext :
  let r := WpCrasherEvtInterruptIsr currentTime kd devContext in
  isr_result r = Returns FALSE
  \/ (isr_result r = NeverReturns
      /\ IS_DEBUGGER_ATTACHED kd = FALSE
      /\ isr_calls r = [KeBugCheckEx MANUALLY_INITIATED_CRASH 1 0 0 0]
      /\ NumberOfSwipes (isr_context r) = INPUT_PATTERN_NUM_OF_SWIPES).
Proof.
  cbv zeta. unfold WpCrasherEvtInterruptIsr, Isr_count_swipe, Exit.
  destruct (WpCrasherDoBugCheck_cases kd) as [(_ & _ & ->)|(_ & Hno & ->)];
    split_tests; cbn; auto; tests_to_facts; right; auto.
Qed.

End OneInterrupt.

(** ** The paths of one call *)

Section Paths.
Context {h : device_h}.

Implicit Types (t kd w : Z) (d : DEVICE_EXTENSION).

Lemma Isr_count_swipe_too_long kd d w :
  SINGLE_SWIPE_MAX_PERIOD < w ->
  Isr_count_swipe kd d w = Exit (set_TimeStampInputPatternBegin 0 d).
Proof.
  intros H. unfold Isr_count_swipe.
  apply Z.ltb_lt in H. now rewrite Z.gtb_ltb, H.
Qed.

Lemma Isr_count_swipe_short kd d w :
  w <= SINGLE_SWIPE_MAX_PERIOD -> w < SINGLE_SWIPE_MIN_PERIOD ->
  Isr_count_swipe kd d w = Exit d.
Proof.
  intros Hmax Hmin. unfold Isr_count_swipe.
  apply Z.ltb_ge in Hmax. apply Z.ltb_lt in Hmin.
  now rewrite Z.gtb_ltb, Hmax, Hmin.
Qed.

Lemma Isr_count_swipe_already kd d w :
  w <= SINGLE_SWIPE_MAX_PERIOD -> SwipeThreholdReached d = TRUE ->
  Isr_count_swipe kd d w = Exit d.
Proof.
  intros Hmax Hthr. unfold Isr_count_swipe.
  apply Z.ltb_ge in Hmax. rewrite Z.gtb_ltb, Hmax, Hthr.
  now rewrite orb_true_r.
Qed.

Lemma Isr_count_swipe_counts kd d w :
  SINGLE_SWIPE_MIN_PERIOD <= w <= SINGLE_SWIPE_MAX_PERIOD ->
  SwipeThreholdReached d <> TRUE ->
  let counted :=
    set_SwipeThreholdReached TRUE
      (set_NumberOfSwipes (U32.incr (NumberOfSwipes d)) d) in
  Isr_count_swipe kd d w =
  if U32.incr (NumberOfSwipes d) =? INPUT_PATTERN_NUM_OF_SWIPES then
    match WpCrasherDoBugCheck kd with
    | (calls, Returns _) =>
        {| isr_context := set_TimeStampInputPatternBegin 0 counted;
           isr_calls := calls; isr_result := Returns FALSE |}
    | (calls, NeverReturns) =>
        {| isr_context := counted;
           isr_calls := calls; isr_result := NeverReturns |}
    end
  else Exit counted.
Proof.
  intros [Hmin Hmax] Hthr. unfold Isr_count_swipe.
  apply Z.ltb_ge in Hmax, Hmin. apply Z.eqb_neq in Hthr.
  now rewrite Z.gtb_ltb, Hmax, Hmin, Hthr.
Qed.

Lemma isr_cold_start t kd d :
  TimeStampInputPatternBegin d = 0 ->
  WpCrasherEvtInterruptIsr t kd d =
  Exit (set_SwipeThreholdReached FALSE
         (set_NumberOfSwipes 0
           (set_TimeStampLastInterrupt t
             (set_TimeStampSwipeBegin t
               (set_TimeStampInputPatternBegin t d))))).
Proof. intros H. unfold WpCrasherEvtInterruptIsr. now rewrite H. Qed.

Lemma isr_same_swipe t kd d :
  TimeStampInputPatternBegin d <> 0 ->
  U64.sub t (TimeStampInputPatternBegin d) <= INPUT_PATTERN_MAX_PERIOD ->
  U64.sub t (TimeStampLastInterrupt d) <= SINGLE_SWIPE_MAX_INTERVAL ->
  WpCrasherEvtInterruptIsr t kd d =
  Isr_count_swipe kd (set_TimeStampLastInterrupt t d)
    (U64.sub (TimeStampLastInterrupt d) (TimeStampSwipeBegin d)).
Proof.
  intros Hp Hpat Hgap. unfold WpCrasherEvtInterruptIsr.
  apply Z.eqb_neq in Hp. apply Z.ltb_ge in Hpat, Hgap.
  now rewrite Hp, !Z.gtb_ltb, Hpat, Hgap.
Qed.

Lemma isr_abandoned_rest t kd d :
  TimeStampInputPatternBegin d <> 0 ->
  U64.sub t (TimeStampInputPatternBegin d) <= INPUT_PATTERN_MAX_PERIOD ->
  SINGLE_SWIPE_MAX_INTERVAL < U64.sub t (TimeStampLastInterrupt d) ->
  U64.sub t (TimeStampLastInterrupt d) < SINGLE_SWIPE_MIN_PERIOD
  \/ SINGLE_SWIPE_MAX_PERIOD < U64.sub t (TimeStampLastInterrupt d) ->
  WpCrasherEvtInterruptIsr t kd d =
  Exit (set_TimeStampInputPatternBegin 0 (set_TimeStampLastInterrupt t d)).
Proof.
  intros Hp Hpat Hgap Hout. unfold WpCrasherEvtInterruptIsr.
  apply Z.eqb_neq in Hp. apply Z.ltb_ge in Hpat. apply Z.ltb_lt in Hgap.
  rewrite Hp, !Z.gtb_ltb, Hpat, Hgap.
  destruct Hout as [H|H]; apply Z.ltb_lt in H; rewrite H;
    now rewrite ?orb_true_r.
Qed.

Lemma isr_new_swipe t kd d :
  TimeStampInputPatternBegin d <> 0 ->
  U64.sub t (TimeStampInputPatternBegin d) <= INPUT_PATTERN_MAX_PERIOD ->
  SINGLE_SWIPE_MAX_INTERVAL < U64.sub t (TimeStampLastInterrupt d) ->
  SINGLE_SWIPE_MIN_PERIOD <= U64.sub t (TimeStampLastInterrupt d)
    <= SINGLE_SWIPE_MAX_PERIOD ->
  WpCrasherEvtInterruptIsr t kd d =
  Isr_count_swipe kd
    (set_SwipeThreholdReached FALSE
      (set_TimeStampSwipeBegin t (set_TimeStampLastInterrupt t d))) 0.
Proof.
  intros Hp Hpat Hgap [Hmin Hmax]. unfold WpCrasherEvtInterruptIsr.
  apply Z.eqb_neq in Hp. apply Z.ltb_ge in Hpat, Hmin, Hmax.
  apply Z.ltb_lt in Hgap.
  now rewrite Hp, !Z.gtb_ltb, Hpat, Hgap, Hmin, Hmax.
Qed.

(** The swipe-counting part never moves the start of the swipe. *)
Lemma Isr_count_swipe_keeps_begin kd d w :
  TimeStampSwipeBegin (isr_context (Isr_count_swipe kd d w))
  = TimeStampSwipeBegin d.
Proof.
  unfold Isr_count_swipe, Exit.
  destruct (WpCrasherDoBugCheck_cases kd) as [(_ & _ & ->)|(_ & _ & ->)];
    split_tests; reflexivity.
Qed.

(** C2. On a call past the cold start and the overall timeout, a gap since
    the last interrupt of at most SINGLE_SWIPE_MAX_INTERVAL (the bound
    included) continues the swipe: the start of the swipe stays, a swipe
    already counted stays counted, and the measured duration is used. A
    longer gap abandons the pattern (TimeStampInputPatternBegin cleared, no
    call, no swipe counted, FALSE returned) exactly when it is below
    SINGLE_SWIPE_MIN_PERIOD or above SINGLE_SWIPE_MAX_PERIOD; inside that
    window it begins a swipe: after the call TimeStampSwipeBegin and
    TimeStampLastInterrupt are currentTime, SwipeThreholdReached is FALSE,
    the pattern start and NumberOfSwipes are as before (swippingTime is 0,
    so nothing is counted), no call is made and FALSE is returned. *)
Theorem C2_swipe_boundary t kd d :
  0 < SINGLE_SWIPE_MIN_PERIOD ->
  TimeStampInputPatternBegin d <> 0 ->
  U64.sub t (TimeStampInputPatternBegin d) <= INPUT_PATTERN_MAX_PERIOD ->
  let stoppedTime := U64.sub t (TimeStampLastInterrupt d) in
  let seen := set_TimeStampLastInterrupt t d in
  let begun :=
    set_SwipeThreholdReached FALSE (set_TimeStampSwipeBegin t seen) in
  let r := WpCrasherEvtInterruptIsr t kd d in
  (stoppedTime <= SINGLE_SWIPE_MAX_INTERVAL ->
   r = Isr_count_swipe kd seen
         (U64.sub (TimeStampLastInterrupt d) (TimeStampSwipeBegin d))
   /\ TimeStampSwipeBegin (isr_context r) = TimeStampSwipeBegin d
   /\ (SwipeThreholdReached d = TRUE ->
       SwipeThreholdReached (isr_context r) = TRUE))
  /\ (SINGLE_SWIPE_MAX_INTERVAL < stoppedTime ->
      (r = Exit (set_TimeStampInputPatternBegin 0 seen) <->
       stoppedTime < SINGLE_SWIPE_MIN_PERIOD
       \/ SINGLE_SWIPE_MAX_PERIOD < stoppedTime)
      /\ (TimeStampInputPatternBegin (isr_context r) = 0 <->
          stoppedTime < SINGLE_SWIPE_MIN_PERIOD
          \/ SINGLE_SWIPE_MAX_PERIOD < stoppedTime)
      /\ (stoppedTime < SINGLE_SWIPE_MIN_PERIOD
          \/ SINGLE_SWIPE_MAX_PERIOD < stoppedTime ->
          TimeStampInputPatternBegin (isr_context r) = 0
          /\ TimeStampLastInterrupt (isr_context r) = t
          /\ TimeStampSwipeBegin (isr_context r) = TimeStampSwipeBegin d
          /\ SwipeThreholdReached (isr_context r) = SwipeThreholdReached d
          /\ NumberOfSwipes (isr_context r) = NumberOfSwipes d
          /\ isr_calls r = []
          /\ isr_result r = Returns FALSE)
      /\ (SINGLE_SWIPE_MIN_PERIOD <= stoppedTime <= SINGLE_SWIPE_MAX_PERIOD ->
          r = Isr_count_swipe kd begun 0 /\ r = Exit begun
          /\ TimeStampSwipeBegin (isr_context r) = t
          /\ SwipeThreholdReached (isr_context r) = FALSE
          /\ TimeStampLastInterrupt (isr_context r) = t
          /\ TimeStampInputPatternBegin (isr_context r)
             = TimeStampInputPatternBegin d
          /\ NumberOfSwipes (isr_context r) = NumberOfSwipes d
          /\ isr_calls r = []
          /\ isr_result r = Returns FALSE)).
Proof.
  intros Hmin Hp Hpat. cbv zeta. split.
  - intros Hgap. rewrite (isr_same_swipe t kd d Hp Hpat Hgap).
    split; [reflexivity|]. split; [now rewrite Isr_count_swipe_keeps_begin|].
    intros Hthr. unfold Isr_count_swipe, Exit.
    cbn [SwipeThreholdReached set_TimeStampLastInterrupt]. rewrite Hthr.
    rewrite orb_true_r. split_tests; cbn; assumption.
  - intros Hgap.
    assert (Hin : SINGLE_SWIPE_MIN_PERIOD
                  <= U64.sub t (TimeStampLastInterrupt d)
                  <= SINGLE_SWIPE_MAX_PERIOD ->
                  WpCrasherEvtInterruptIsr t kd d
                  = Exit (set_SwipeThreholdReached FALSE
                           (set_TimeStampSwipeBegin t
                             (set_TimeStampLastInterrupt t d)))).
    { intros Hwin. rewrite (isr_new_swipe t kd d Hp Hpat Hgap Hwin).
      apply Isr_count_swipe_short; lia. }
    assert (Hout : U64.sub t (TimeStampLastInterrupt d)
                   < SINGLE_SWIPE_MIN_PERIOD
                   \/ SINGLE_SWIPE_MAX_PERIOD
                      < U64.sub t (TimeStampLastInterrupt d) ->
                   WpCrasherEvtInterruptIsr t kd d
                   = Exit (set_TimeStampInputPatternBegin 0
                            (set_TimeStampLastInterrupt t d)))
      by (intros Hout; now apply isr_abandoned_rest).
    assert (Hcases : (U64.sub t (TimeStampLastInterrupt d)
                      < SINGLE_SWIPE_MIN_PERIOD
                      \/ SINGLE_SWIPE_MAX_PERIOD
                         < U64.sub t (TimeStampLastInterrupt d))
                     \/ SINGLE_SWIPE_MIN_PERIOD
                        <= U64.sub t (TimeStampLastInterrupt d)
                        <= SINGLE_SWIPE_MAX_PERIOD) by lia.
    split; [split|split; [split|split]].
    + intros E. destruct Hcases as [Ho|Hi]; [assumption|].
      rewrite (Hin Hi) in E.
      apply (f_equal (fun r => TimeStampInputPatternBegin (isr_context r)))
        in E.
      cbn in E. contradiction.
    + exact Hout.
    + intros E. destruct Hcases as [Ho|Hi]; [assumption|].
      rewrite (Hin Hi) in E. cbn in E. contradiction.
    + intros Ho. rewrite (Hout Ho). reflexivity.
    + intros Ho. rewrite (Hout Ho). cbn. repeat split; reflexivity.
    + intros Hwin. split; [now apply isr_new_swipe|].
      rewrite (Hin Hwin). cbn. repeat split; reflexivity.
Qed.

(** C8 (amended). Within a swipe (gap at most SINGLE_SWIPE_MAX_INTERVAL)
    that has not been counted yet, an interrupt that finds the swipe
    shorter than SINGLE_SWIPE_MIN_PERIOD does not count it, and one that
    finds it SINGLE_SWIPE_MIN_PERIOD long or longer, up to
    SINGLE_SWIPE_MAX_PERIOD, counts it: NumberOfSwipes is incremented and
    SwipeThreholdReached set. The duration is the one up to the interrupt
    before; a duration of exactly SINGLE_SWIPE_MIN_PERIOD counts. *)
Theorem C8_min_period_boundary t kd d :
  TimeStampInputPatternBegin d <> 0 ->
  U64.sub t (TimeStampInputPatternBegin d) <= INPUT_PATTERN_MAX_PERIOD ->
  U64.sub t (TimeStampLastInterrupt d) <= SINGLE_SWIPE_MAX_INTERVAL ->
  SwipeThreholdReached d = FALSE ->
  let swippingTime :=
    U64.sub (TimeStampLastInterrupt d) (TimeStampSwipeBegin d) in
  let r := WpCrasherEvtInterruptIsr t kd d in
  (swippingTime < SINGLE_SWIPE_MIN_PERIOD ->
   NumberOfSwipes (isr_context r) = NumberOfSwipes d
   /\ SwipeThreholdReached (isr_context r) = FALSE
   /\ quiet r)
  /\ (SINGLE_SWIPE_MIN_PERIOD <= swippingTime <= SINGLE_SWIPE_MAX_PERIOD ->
      NumberOfSwipes (isr_context r) = U32.incr (NumberOfSwipes d)
      /\ SwipeThreholdReached (isr_context r) = TRUE).
Proof.
  intros Hp Hpat Hgap Hthr. cbv zeta.
  rewrite (isr_same_swipe t kd d Hp Hpat Hgap). split.
  - intros Hshort.
    destruct (Z.lt_ge_cases SINGLE_SWIPE_MAX_PERIOD
                (U64.sub (TimeStampLastInterrupt d) (TimeStampSwipeBegin d)))
      as [Hlong|Hok].
    + rewrite Isr_count_swipe_too_long by assumption.
      cbn. repeat split; auto.
    + rewrite Isr_count_swipe_short by assumption.
      cbn. repeat split; auto.
  - intros Hwin. rewrite Isr_count_swipe_counts; [|assumption|].
    + destruct (WpCrasherDoBugCheck_cases kd) as [(_ & _ & ->)|(_ & _ & ->)];
        split_tests; cbn; auto.
    + cbn. rewrite Hthr. discriminate.
Qed.

End Paths.

(** C8: the claim as stated (a swipe measured at exactly 5 s is not counted
    yet) fails. The swipe began at 1 s and the last interrupt was at 6 s, so
    the interrupt at 6.1 s measures exactly 5 s: it counts the swipe, with
    either value of SINGLE_SWIPE_MAX_PERIOD. *)
Lemma C8_counterexample_exactly_min_period :
  U64.sub (TimeStampLastInterrupt swiping_context)
          (TimeStampSwipeBegin swiping_context) = 5 * SECOND
  /\ SwipeThreholdReached swiping_context = FALSE
  /\ NumberOfSwipes swiping_context = 0
  /\ NumberOfSwipes
       (isr_context
          (@WpCrasherEvtInterruptIsr device_h_10s (6 * SECOND + SECOND / 10) 0
             swiping_context)) = 1
  /\ NumberOfSwipes
       (isr_context
          (@WpCrasherEvtInterruptIsr device_h_15s (6 * SECOND + SECOND / 10) 0
             swiping_context)) = 1.
Proof. vm_compute. repeat split. Qed.

(** * The interrupt routine over a sequence of interrupts *)

Lemma final_context_cons (d : DEVICE_EXTENSION) (r : isr_run)
    (runs : list isr_run) :
  final_context d (r :: runs) = final_context (isr_context r) runs.
Proof.
  unfold final_context. cbn [map].
  generalize (isr_context r) as x, (map isr_context runs) as l. clear.
  intros x l. revert x d. induction l as [|y l IH]; intros x d.
  - reflexivity.
  - change (last (x :: y :: l) d) with (last (y :: l) d).
    rewrite (IH y d). symmetry. apply (IH y x).
Qed.

Lemma last_time_cons (prev : Z) (e : interrupt) (body : list interrupt) :
  last_time prev (e :: body) = last_time (time e) body.
Proof.
  unfold last_time. cbn [map].
  generalize (time e) as x, (map time body) as l. clear.
  intros x l. revert x prev. induction l as [|y l IH]; intros x prev.
  - reflexivity.
  - change (last (x :: y :: l) prev) with (last (y :: l) prev).
    rewrite (IH y prev). symmetry. apply (IH y x).
Qed.

Lemma quiet_Exit (d : DEVICE_EXTENSION) : quiet (Exit d).
Proof. split; reflexivity. Qed.

#[local] Hint Resolve quiet_Exit : core.

Section Sequences.
Context {h : device_h}.

Implicit Types (d : DEVICE_EXTENSION) (e : interrupt) (p f l c b : Z).

Lemma deliver_cons_Exit e rest d d' :
  isr e d = Exit d' -> deliver (e :: rest) d = Exit d' :: deliver rest d'.
Proof. intros H. cbn [deliver]. now rewrite H. Qed.

Lemma deliver_app a : forall rest d,
  Forall quiet (deliver a d) ->
  deliver (a ++ rest) d
  = deliver a d ++ deliver rest (final_context d (deliver a d)).
Proof.
  induction a as [|e a IH]; intros rest d Hq.
  - reflexivity.
  - cbn [app deliver] in *. inversion Hq as [|r rs [_ Hret] Hrest]; subst.
    rewrite Hret in *. rewrite final_context_cons.
    cbn [app]. f_equal. now apply IH.
Qed.

Lemma deliver_quiet_length a : forall d,
  Forall quiet (deliver a d) -> length (deliver a d) = length a.
Proof.
  induction a as [|e a IH]; intros d Hq.
  - reflexivity.
  - cbn [deliver] in *. inversion Hq as [|r rs [_ Hret] Hrest]; subst.
    rewrite Hret in *. cbn [length]. f_equal. now apply IH.
Qed.

Lemma isr_overall_timeout t kd d :
  TimeStampInputPatternBegin d <> 0 ->
  U64.sub t (TimeStampInputPatternBegin d) > INPUT_PATTERN_MAX_PERIOD ->
  WpCrasherEvtInterruptIsr t kd d
  = Exit (set_TimeStampInputPatternBegin 0 d).
Proof.
  intros Hbegun Hlate. unfold WpCrasherEvtInterruptIsr.
  apply Z.eqb_neq in Hbegun. rewrite Hbegun.
  apply Z.gt_lt, Z.ltb_lt in Hlate. now rewrite Z.gtb_ltb, Hlate.
Qed.

Hypothesis Hsane : device_h_sane h.

(** An interrupt of the swipe being recorded: no timeout, no boundary. *)
Lemma isr_in_swipe e d p f l c b :
  tracking d p f l c b -> p <> 0 -> p <= f <= l ->
  l <= time e -> time e - l <= SINGLE_SWIPE_MAX_INTERVAL ->
  time e - p <= INPUT_PATTERN_MAX_PERIOD ->
  isr e d
  = Isr_count_swipe (KD_DEBUGGER_NOT_PRESENT e)
      (set_TimeStampLastInterrupt (time e) d) (l - f)
  /\ tracking (set_TimeStampLastInterrupt (time e) d) p f (time e) c b.
Proof.
  intros (Hp & Hf & Hl & Hc & Hb) Hp0 Hord Hle Hgap Hpat.
  destruct Hsane. split; [|repeat split; assumption].
  unfold isr. rewrite isr_same_swipe; rewrite ?Hp, ?Hl, ?Hf; auto;
    rewrite U64_sub_exact by lia; (reflexivity || lia).
Qed.

(** Interrupts of a swipe that has been counted: nothing happens. *)
Lemma counted_tail_runs body : forall d p f l c,
  tracking d p f l c TRUE -> p <> 0 -> p <= f <= l ->
  gapsb SINGLE_SWIPE_MAX_INTERVAL l body = true ->
  boundedb f l body = true ->
  withinb p body = true ->
  Forall quiet (deliver body d)
  /\ tracking (final_context d (deliver body d)) p f (last_time l body) c TRUE.
Proof.
  induction body as [|e body IH]; intros d p f l c Ht Hp0 Hord Hg Hb Hw.
  - split; [constructor|exact Ht].
  - cbn [gapsb boundedb withinb forallb] in Hg, Hb, Hw. tests_to_facts.
    destruct (isr_in_swipe e d p f l c TRUE Ht Hp0 Hord) as [Hrun Ht'];
      try lia.
    rewrite Isr_count_swipe_already in Hrun; [|lia|apply Ht'].
    rewrite (deliver_cons_Exit _ _ _ _ Hrun), final_context_cons,
      last_time_cons.
    cbn [isr_context Exit].
    destruct (IH _ p f (time e) c Ht') as [Hq Hfin]; auto; try lia.
Qed.

(** The interrupt that counts a swipe short of the last one. *)
Lemma count_swipe_quiet kd d p f l c w :
  tracking d p f l c FALSE ->
  SINGLE_SWIPE_MIN_PERIOD <= w <= SINGLE_SWIPE_MAX_PERIOD ->
  0 <= c -> c + 1 < INPUT_PATTERN_NUM_OF_SWIPES ->
  exists d', Isr_count_swipe kd d w = Exit d'
             /\ tracking d' p f l (c + 1) TRUE.
Proof.
  intros (Hp & Hf & Hl & Hc & Hb) Hw Hc0 Hc1. destruct Hsane.
  rewrite Isr_count_swipe_counts; [|assumption|rewrite Hb; discriminate].
  cbv zeta. rewrite Hc, U32_incr_exact by lia.
  destruct (c + 1 =? INPUT_PATTERN_NUM_OF_SWIPES) eqn:E; tests_to_facts;
    [lia|].
  eexists. split; [reflexivity|]. repeat split; assumption.
Qed.

(** The interrupt that counts the last swipe of the pattern. *)
Lemma count_swipe_fatal kd d p f l c w :
  tracking d p f l c FALSE ->
  SINGLE_SWIPE_MIN_PERIOD <= w <= SINGLE_SWIPE_MAX_PERIOD ->
  0 <= c -> c + 1 = INPUT_PATTERN_NUM_OF_SWIPES ->
  let r := Isr_count_swipe kd d w in
  NumberOfSwipes (isr_context r) = INPUT_PATTERN_NUM_OF_SWIPES
  /\ completed kd r.
Proof.
  intros (Hp & Hf & Hl & Hc & Hb) Hw Hc0 Hc1. destruct Hsane. cbv zeta.
  rewrite Isr_count_swipe_counts; [|assumption|rewrite Hb; discriminate].
  cbv zeta. rewrite Hc, U32_incr_exact by lia.
  rewrite (proj2 (Z.eqb_eq _ _) Hc1). unfold completed.
  destruct (WpCrasherDoBugCheck_cases kd) as [(_ & Ha & ->)|(_ & Ha & ->)];
    cbn; auto 10.
Qed.

(** One interrupt on a pattern that restarted inside a swipe. *)
Lemma isr_restarted e d prev :
  1 < INPUT_PATTERN_NUM_OF_SWIPES ->
  restarted d prev ->
  prev <= time e -> time e - prev <= SINGLE_SWIPE_MAX_INTERVAL ->
  exists d', isr e d = Exit d' /\ restarted d' (time e).
Proof.
  intros HN Hr Hle Hgap. destruct Hsane. unfold isr.
  destruct (Z.eq_dec (TimeStampInputPatternBegin d) 0) as [Hidle|Hbusy].
  - rewrite isr_cold_start by assumption.
    eexists. split; [reflexivity|]. right. cbn. auto.
  - destruct Hr as [Hidle|(Hlast & Hcount)]; [contradiction|].
    destruct (Z.lt_ge_cases INPUT_PATTERN_MAX_PERIOD
                (U64.sub (time e) (TimeStampInputPatternBegin d)))
      as [Hlate|Hpat].
    + rewrite isr_overall_timeout by (assumption || lia).
      eexists. split; [reflexivity|]. now left.
    + rewrite isr_same_swipe;
        [|assumption|assumption|rewrite Hlast, U64_sub_exact; lia].
      unfold Isr_count_swipe.
      destruct Hcount as [(Hc & Hb)|(Hc & Hb)]; cbn; rewrite Hb, ?Hc;
        change (U32.incr 0) with 1;
        split_tests; tests_to_facts; try lia; try discriminate;
        eexists; (split; [reflexivity|]);
        solve [now left | right; cbn; auto].
Qed.

(** A pattern that restarted inside a swipe stays quiet to the end of the
    swipe. *)
Lemma restart_quiet body : forall d prev,
  1 < INPUT_PATTERN_NUM_OF_SWIPES ->
  restarted d prev ->
  gapsb SINGLE_SWIPE_MAX_INTERVAL prev body = true ->
  Forall quiet (deliver body d).
Proof.
  induction body as [|e body IH]; intros d prev HN Hr Hg.
  - constructor.
  - cbn [gapsb] in Hg. tests_to_facts.
    destruct (isr_restarted e d prev HN Hr) as (d' & Hrun & Hr'); try lia.
    rewrite (deliver_cons_Exit _ _ _ _ Hrun). constructor; [auto|].
    now apply (IH d' (time e)).
Qed.

(** The rest of a swipe that has begun and is counted before it ends, when
    it is not the last swipe of the pattern. *)
Lemma swipe_body_runs body : forall d p f l c,
  tracking d p f l c FALSE -> p <> 0 -> p <= f <= l ->
  0 <= c -> c + 1 < INPUT_PATTERN_NUM_OF_SWIPES ->
  gapsb SINGLE_SWIPE_MAX_INTERVAL l body = true ->
  countedb f l body = true ->
  boundedb f l body = true ->
  withinb p body = true ->
  Forall quiet (deliver body d)
  /\ tracking (final_context d (deliver body d)) p f (last_time l body)
       (c + 1) TRUE.
Proof.
  induction body as [|e body IH];
    intros d p f l c Ht Hp0 Hord Hc0 Hc1 Hg Hc Hb Hw.
  - discriminate.
  - cbn [gapsb countedb boundedb withinb forallb] in Hg, Hc, Hb, Hw.
    tests_to_facts.
    destruct (isr_in_swipe e d p f l c FALSE Ht Hp0 Hord) as [Hrun Ht'];
      try lia.
    rewrite last_time_cons.
    destruct (Z.le_gt_cases SINGLE_SWIPE_MIN_PERIOD (l - f)) as [Hlong|Hshort].
    + destruct (count_swipe_quiet (KD_DEBUGGER_NOT_PRESENT e) _ p f (time e)
                  c (l - f) Ht') as (d' & Hcount & Ht''); try lia.
      rewrite Hcount in Hrun.
      rewrite (deliver_cons_Exit _ _ _ _ Hrun), final_context_cons.
      cbn [isr_context Exit].
      destruct (counted_tail_runs body d' p f (time e) (c + 1) Ht'')
        as [Hq Hfin]; auto; try lia.
    + rewrite Isr_count_swipe_short in Hrun by lia.
      rewrite (deliver_cons_Exit _ _ _ _ Hrun), final_context_cons.
      cbn [isr_context Exit].
      destruct Hc as [Hc|Hc]; [apply Z.leb_le in Hc; lia|].
      destruct (IH _ p f (time e) c Ht') as [Hq Hfin]; auto; try lia.
Qed.

(** The rest of the last swipe of the pattern: quiet up to the interrupt
    that counts it, which reaches WpCrasherDoBugCheck, and quiet after it
    if that returned. *)
Lemma last_swipe_body_runs body : forall d p f l c,
  tracking d p f l c FALSE -> p <> 0 -> p <= f <= l ->
  0 <= c -> c + 1 = INPUT_PATTERN_NUM_OF_SWIPES ->
  1 < INPUT_PATTERN_NUM_OF_SWIPES ->
  gapsb SINGLE_SWIPE_MAX_INTERVAL l body = true ->
  countedb f l body = true ->
  boundedb f l body = true ->
  withinb p body = true ->
  exists before r after e,
    deliver body d = before ++ r :: after
    /\ length before = count_index f l body
    /\ nth_error body (count_index f l body) = Some e
    /\ Forall quiet before /\ Forall quiet after
    /\ NumberOfSwipes (isr_context r) = INPUT_PATTERN_NUM_OF_SWIPES
    /\ completed (KD_DEBUGGER_NOT_PRESENT e) r
    /\ (isr_result r = Returns FALSE ->
        length (before ++ r :: after) = length body).
Proof.
  induction body as [|e body IH];
    intros d p f l c Ht Hp0 Hord Hc0 Hc1 HN Hg Hc Hb Hw.
  - discriminate.
  - cbn [gapsb countedb boundedb withinb forallb] in Hg, Hc, Hb, Hw.
    tests_to_facts.
    destruct (isr_in_swipe e d p f l c FALSE Ht Hp0 Hord) as [Hrun Ht'];
      try lia.
    cbn [count_index].
    destruct (Z.le_gt_cases SINGLE_SWIPE_MIN_PERIOD (l - f)) as [Hlong|Hshort].
    + rewrite (proj2 (Z.leb_le _ _) Hlong).
      destruct (count_swipe_fatal (KD_DEBUGGER_NOT_PRESENT e) _ p f (time e)
                  c (l - f) Ht') as (Hn & Hdone); try lia.
      rewrite <- Hrun in Hn, Hdone.
      exists [], (isr e d),
        (match isr_result (isr e d) with
         | Returns _ => deliver body (isr_context (isr e d))
         | NeverReturns => []
         end), e.
      assert (Hafter : Forall quiet
                (match isr_result (isr e d) with
                 | Returns _ => deliver body (isr_context (isr e d))
                 | NeverReturns => []
                 end)).
      { destruct Hdone as [(_ & _ & Hret & Hidle)|(_ & _ & Hret)];
          rewrite Hret; [|constructor].
        apply (restart_quiet body _ (time e)); auto. now left. }
      cbn [app length nth_error]. repeat split; auto.
      all: intros Hret; rewrite Hret in *; f_equal;
        now apply deliver_quiet_length.
    + rewrite (proj2 (Z.leb_gt _ _) Hshort).
      rewrite Isr_count_swipe_short in Hrun by lia.
      rewrite (deliver_cons_Exit _ _ _ _ Hrun).
      destruct Hc as [Hc|Hc]; [apply Z.leb_le in Hc; lia|].
      destruct (IH _ p f (time e) c Ht')
        as (before & r & after & e' & Hd & Hlen & Hnth & Hqb & Hqa & Hn
            & Hdone & Hfull); auto; try lia.
      exists (Exit (set_TimeStampLastInterrupt (time e) d) :: before),
        r, after, e'.
      rewrite Hd. cbn [length app nth_error].
      repeat split; auto.
Qed.

(** A whole swipe on an idle context: the cold start, then the swipe. *)
Lemma first_swipe_runs s d :
  1 < INPUT_PATTERN_NUM_OF_SWIPES ->
  TimeStampInputPatternBegin d = 0 ->
  first_time s <> 0 ->
  counted_swipe s = true ->
  withinb (first_time s) s = true ->
  Forall quiet (deliver s d)
  /\ tracking (final_context d (deliver s d)) (first_time s) (first_time s)
       (last_time 0 s) 1 TRUE.
Proof.
  intros HN Hidle Hnz Hs Hw. destruct s as [|e body]; [discriminate|].
  cbn [first_time counted_swipe withinb forallb] in *. tests_to_facts.
  assert (Hrun := isr_cold_start (time e) (KD_DEBUGGER_NOT_PRESENT e) d Hidle).
  fold (isr e d) in Hrun.
  rewrite (deliver_cons_Exit _ _ _ _ Hrun), final_context_cons,
    last_time_cons.
  cbn [isr_context Exit].
  match goal with
  | |- context [deliver body ?d'] =>
      destruct (swipe_body_runs body d' (time e) (time e) (time e) 0)
        as [Hq Hfin]; auto; try lia; try (repeat split; reflexivity)
  end.
Qed.

(** A whole swipe after a rest, when it is not the last of the pattern. *)
Lemma next_swipe_runs s d p f l c :
  tracking d p f l c TRUE -> p <> 0 -> p <= f <= l ->
  0 <= c -> c + 1 < INPUT_PATTERN_NUM_OF_SWIPES ->
  SINGLE_SWIPE_MIN_PERIOD <= first_time s - l <= SINGLE_SWIPE_MAX_PERIOD ->
  counted_swipe s = true ->
  withinb p s = true ->
  Forall quiet (deliver s d)
  /\ tracking (final_context d (deliver s d)) p (first_time s)
       (last_time 0 s) (c + 1) TRUE.
Proof.
  intros Ht Hp0 Hord Hc0 Hc1 Hrest Hs Hw.
  destruct s as [|e body]; [discriminate|]. destruct Hsane.
  cbn [first_time counted_swipe withinb forallb] in *. tests_to_facts.
  destruct Ht as (Hp & Hf & Hl & Hc & Hb).
  assert (Hrun : isr e d
                 = Exit (set_SwipeThreholdReached FALSE
                          (set_TimeStampSwipeBegin (time e)
                            (set_TimeStampLastInterrupt (time e) d)))).
  { unfold isr. rewrite isr_new_swipe;
      rewrite ?Hp, ?Hl; try rewrite U64_sub_exact by lia; try lia.
    apply Isr_count_swipe_short; lia. }
  rewrite (deliver_cons_Exit _ _ _ _ Hrun), final_context_cons,
    last_time_cons.
  match goal with
  | |- context [deliver body ?d'] =>
      destruct (swipe_body_runs body d' p (time e) (time e) c)
        as [Hq Hfin]; auto; try lia; try (repeat split; assumption)
  end.
Qed.

(** The last swipe of the pattern, after a rest. *)
Lemma last_swipe_runs s d p f l c :
  tracking d p f l c TRUE -> p <> 0 -> p <= f <= l ->
  0 <= c -> c + 1 = INPUT_PATTERN_NUM_OF_SWIPES ->
  1 < INPUT_PATTERN_NUM_OF_SWIPES ->
  SINGLE_SWIPE_MIN_PERIOD <= first_time s - l <= SINGLE_SWIPE_MAX_PERIOD ->
  counted_swipe s = true ->
  withinb p s = true ->
  exists before r after e,
    deliver s d = before ++ r :: after
    /\ length before = counting_index s
    /\ nth_error s (counting_index s) = Some e
    /\ Forall quiet before /\ Forall quiet after
    /\ NumberOfSwipes (isr_context r) = INPUT_PATTERN_NUM_OF_SWIPES
    /\ completed (KD_DEBUGGER_NOT_PRESENT e) r
    /\ (isr_result r = Returns FALSE ->
        length (before ++ r :: after) = length s).
Proof.
  intros Ht Hp0 Hord Hc0 Hc1 HN Hrest Hs Hw.
  destruct s as [|e body]; [discriminate|]. destruct Hsane.
  cbn [first_time counted_swipe counting_index withinb forallb] in *.
  tests_to_facts.
  destruct Ht as (Hp & Hf & Hl & Hc & Hb).
  assert (Hrun : isr e d
                 = Exit (set_SwipeThreholdReached FALSE
                          (set_TimeStampSwipeBegin (time e)
                            (set_TimeStampLastInterrupt (time e) d)))).
  { unfold isr. rewrite isr_new_swipe;
      rewrite ?Hp, ?Hl; try rewrite U64_sub_exact by lia; try lia.
    apply Isr_count_swipe_short; lia. }
  rewrite (deliver_cons_Exit _ _ _ _ Hrun).
  match goal with
  | |- context [deliver body ?d'] =>
      destruct (last_swipe_body_runs body d' p (time e) (time e) c)
        as (before & r & after & e' & Hd & Hlen & Hnth & Hqb & Hqa & Hn
            & Hdone & Hfull);
        auto; try lia; try (repeat split; assumption);
      exists (Exit d' :: before), r, after, e'
  end.
  rewrite Hd. cbn [length app nth_error]. repeat split; auto.
Qed.

End Sequences.

(** ** The bound on NumberOfSwipes *)

Section CountInvariant.
Context {h : device_h}.

Hypothesis HN : 1 <= INPUT_PATTERN_NUM_OF_SWIPES < U32.modulus.

Lemma counting_zero : counting zero_DEVICE_EXTENSION.
Proof. split; cbn; [lia|intros H; now contradiction H]. Qed.

(** One call keeps the invariant, and reaches WpCrasherDoBugCheck exactly
    when it brings NumberOfSwipes to the number of swipes of the pattern. *)
Lemma isr_counting (e : interrupt) (d : DEVICE_EXTENSION) :
  counting d \/ TimeStampInputPatternBegin d = 0 ->
  let r := isr e d in
  0 <= NumberOfSwipes (isr_context r) <= INPUT_PATTERN_NUM_OF_SWIPES
  /\ (forall ret, isr_result r = Returns ret -> counting (isr_context r))
  /\ (NumberOfSwipes (isr_context r) = INPUT_PATTERN_NUM_OF_SWIPES ->
      completed (KD_DEBUGGER_NOT_PRESENT e) r)
  /\ (NumberOfSwipes (isr_context r) < INPUT_PATTERN_NUM_OF_SWIPES ->
      quiet r).
Proof.
  intros Hd. cbv zeta. unfold isr.
  destruct (Z.eq_dec (TimeStampInputPatternBegin d) 0) as [Hidle|Hp].
  - rewrite isr_cold_start by assumption. unfold counting. cbn.
    repeat split; auto; lia.
  - destruct Hd as [[Hc Hbusy]|Hidle]; [|contradiction].
    specialize (Hbusy Hp).
    assert (Hincr : U32.incr (NumberOfSwipes d) = NumberOfSwipes d + 1)
      by (apply U32_incr_exact; lia).
    unfold WpCrasherEvtInterruptIsr, Isr_count_swipe, Exit, counting,
      completed, quiet.
    destruct (WpCrasherDoBugCheck_cases (KD_DEBUGGER_NOT_PRESENT e))
      as [(_ & Ha & ->)|(_ & Ha & ->)];
      split_tests; cbn; rewrite ?Hincr; tests_to_facts;
      repeat split; intros; auto; try discriminate; try lia;
      try (cbn in *; rewrite ?Hincr in *; lia).
Qed.

(** A call that ends in the bug check leaves the pattern start as it was,
    and it was set. *)
Lemma isr_bug_check_keeps_pattern (e : interrupt) (d : DEVICE_EXTENSION) :
  isr_result (isr e d) = NeverReturns ->
  TimeStampInputPatternBegin (isr_context (isr e d))
  = TimeStampInputPatternBegin d
  /\ TimeStampInputPatternBegin d <> 0.
Proof.
  unfold isr, WpCrasherEvtInterruptIsr, Isr_count_swipe, Exit.
  destruct (WpCrasherDoBugCheck_cases (KD_DEBUGGER_NOT_PRESENT e))
    as [(_ & _ & ->)|(_ & _ & ->)];
    split_tests; cbn; intros Hret; try discriminate; tests_to_facts;
    split; auto.
Qed.

Lemma deliver_counting (interrupts : list interrupt) :
  forall d, counting d \/ TimeStampInputPatternBegin d = 0 ->
  Forall (fun er : interrupt * isr_run =>
            let r := snd er in
            0 <= NumberOfSwipes (isr_context r)
              <= INPUT_PATTERN_NUM_OF_SWIPES
            /\ (NumberOfSwipes (isr_context r) = INPUT_PATTERN_NUM_OF_SWIPES
                -> (IS_DEBUGGER_ATTACHED (KD_DEBUGGER_NOT_PRESENT (fst er))
                    = TRUE
                    /\ isr_calls r = [debugbreak]
                    /\ isr_result r = Returns FALSE
                    /\ TimeStampInputPatternBegin (isr_context r) = 0)
                   \/ (IS_DEBUGGER_ATTACHED (KD_DEBUGGER_NOT_PRESENT (fst er))
                       = FALSE
                       /\ isr_calls r
                          = [KeBugCheckEx MANUALLY_INITIATED_CRASH 1 0 0 0]
                       /\ isr_result r = NeverReturns
                       /\ TimeStampInputPatternBegin (isr_context r) <> 0))
            /\ (NumberOfSwipes (isr_context r) < INPUT_PATTERN_NUM_OF_SWIPES
                -> quiet r))
         (combine interrupts (deliver interrupts d)).
Proof.
  induction interrupts as [|e rest IH]; intros d Hd.
  - constructor.
  - cbn [deliver combine].
    destruct (isr_counting e d Hd) as (Hb & Hnext & Hfull & Hless).
    constructor.
    + cbn [fst snd]. split; [exact Hb|]. split; [|exact Hless].
      intros Hfour.
      destruct (Hfull Hfour) as [(Ha & Hc & Hr & Hp)|(Ha & Hc & Hr)];
        [left; auto|right].
      destruct (isr_bug_check_keeps_pattern e d Hr) as [Hsame Hset].
      repeat split; auto. congruence.
    + destruct (isr_result (isr e d)) as [ret|] eqn:Hret.
      * apply IH. left. now apply (Hnext ret).
      * destruct rest; constructor.
Qed.

(** A quiet run leaves NumberOfSwipes below the number of swipes of the
    pattern. *)
Lemma deliver_quiet_below (interrupts : list interrupt) :
  forall d, counting d \/ TimeStampInputPatternBegin d = 0 ->
  Forall (fun r => quiet r ->
            NumberOfSwipes (isr_context r) < INPUT_PATTERN_NUM_OF_SWIPES)
         (deliver interrupts d).
Proof.
  induction interrupts as [|e rest IH]; intros d Hd.
  - constructor.
  - cbn [deliver].
    destruct (isr_counting e d Hd) as (Hb & Hnext & Hfull & Hless).
    constructor.
    + intros [Hcalls Hret].
      destruct (Z.eq_dec (NumberOfSwipes (isr_context (isr e d)))
                  INPUT_PATTERN_NUM_OF_SWIPES) as [Hfour|Hless']; [|lia].
      destruct (Hfull Hfour) as [(_ & Hc & _)|(_ & Hc & _)];
        rewrite Hcalls in Hc; discriminate.
    + destruct (isr_result (isr e d)) as [ret|] eqn:Hret.
      * apply IH. left. now apply (Hnext ret).
      * constructor.
Qed.

End CountInvariant.

Section CountBound.
Context {h : device_h}.

(** C7 (amended). From the zero-initialized context, after every call of
    the interrupt routine NumberOfSwipes is between 0 and
    INPUT_PATTERN_NUM_OF_SWIPES. A call that leaves it below that number
    is quiet; a call that brings it to that number reaches
    WpCrasherDoBugCheck on that call, and then either the debugger breaks,
    TimeStampInputPatternBegin is cleared and the call returns FALSE, or
    the system is stopped by the bug check, the call does not return and
    TimeStampInputPatternBegin is not cleared: on any context, a call that
    ends in the bug check leaves the pattern start at the non-zero value it
    had. *)
Theorem C7_swipe_count_bounded (interrupts : list interrupt) :
  1 <= INPUT_PATTERN_NUM_OF_SWIPES < U32.modulus ->
  Forall (fun er : interrupt * isr_run =>
            let r := snd er in
            0 <= NumberOfSwipes (isr_context r)
              <= INPUT_PATTERN_NUM_OF_SWIPES
            /\ (NumberOfSwipes (isr_context r) = INPUT_PATTERN_NUM_OF_SWIPES
                -> (IS_DEBUGGER_ATTACHED (KD_DEBUGGER_NOT_PRESENT (fst er))
                    = TRUE
                    /\ isr_calls r = [debugbreak]
                    /\ isr_result r = Returns FALSE
                    /\ TimeStampInputPatternBegin (isr_context r) = 0)
                   \/ (IS_DEBUGGER_ATTACHED (KD_DEBUGGER_NOT_PRESENT (fst er))
                       = FALSE
                       /\ isr_calls r
                          = [KeBugCheckEx MANUALLY_INITIATED_CRASH 1 0 0 0]
                       /\ isr_result r = NeverReturns
                       /\ TimeStampInputPatternBegin (isr_context r) <> 0))
            /\ (NumberOfSwipes (isr_context r) < INPUT_PATTERN_NUM_OF_SWIPES
                -> quiet r))
         (combine interrupts (deliver interrupts zero_DEVICE_EXTENSION))
  /\ (forall (e : interrupt) (d : DEVICE_EXTENSION),
        isr_result (isr e d) = NeverReturns ->
        TimeStampInputPatternBegin (isr_context (isr e d))
        = TimeStampInputPatternBegin d
        /\ TimeStampInputPatternBegin d <> 0).
Proof.
  intros HN. split.
  - apply deliver_counting; [assumption|].
    left. now apply counting_zero.
  - intros e d. apply isr_bug_check_keeps_pattern.
Qed.

End CountBound.

(** C7: the claim as stated (the call that reaches the fourth swipe clears
    TimeStampInputPatternBegin) fails with no debugger attached. The run on
    interrupt 116 of four long swipes counts the fourth swipe and ends in the
    bug check, with the pattern start still set. *)
Lemma C7_counterexample_bug_check :
  option_map
    (fun r => (NumberOfSwipes (isr_context r),
               TimeStampInputPatternBegin (isr_context r),
               isr_calls r, isr_result r))
    (nth_error
       (@deliver device_h_10s (four_swipes long_swipe 1)
          zero_DEVICE_EXTENSION) 116)
  = Some (4, SECOND, [KeBugCheckEx MANUALLY_INITIATED_CRASH 1 0 0 0],
          NeverReturns).
Proof. vm_compute. reflexivity. Qed.

(** ** A pattern of four swipes *)

Section FourSwipes.
Context {h : device_h}.

Lemma withinb_app (p : Z) (a b : list interrupt) :
  withinb p (a ++ b) = withinb p a && withinb p b.
Proof. apply forallb_app. Qed.

Lemma withinb_first (p : Z) (s : swipe) :
  withinb p s = true -> counted_swipe s = true -> p <= first_time s.
Proof.
  destruct s as [|e body]; [discriminate|].
  cbn [withinb forallb first_time]. intros Hw _. tests_to_facts. lia.
Qed.

Lemma gapsb_last (interval : Z) (body : list interrupt) : forall prev,
  gapsb interval prev body = true -> prev <= last_time prev body.
Proof.
  induction body as [|e body IH]; intros prev Hg.
  - cbn. lia.
  - cbn [gapsb] in Hg. tests_to_facts. rewrite last_time_cons.
    specialize (IH (time e) ltac:(assumption)). lia.
Qed.

Lemma counted_swipe_order (s : swipe) :
  counted_swipe s = true -> first_time s <= last_time 0 s.
Proof.
  destruct s as [|e body]; [discriminate|].
  cbn [counted_swipe first_time]. intros Hs. tests_to_facts.
  rewrite last_time_cons. eauto using gapsb_last.
Qed.

(** C1 (amended). Take four swipes delivered to an idle context, the first
    interrupt not at time 0, such that in each swipe successive interrupts
    are at most SINGLE_SWIPE_MAX_INTERVAL apart, some interrupt other than
    the last lies SINGLE_SWIPE_MIN_PERIOD or more after the first, and none
    but the last lies more than SINGLE_SWIPE_MAX_PERIOD after it; the rests
    between swipes are within [SINGLE_SWIPE_MIN_PERIOD,
    SINGLE_SWIPE_MAX_PERIOD]; and all interrupts lie within
    INPUT_PATTERN_MAX_PERIOD of the first. Then WpCrasherDoBugCheck is
    reached on exactly one interrupt, the one on which the fourth swipe is
    counted (the successor of the first interrupt of that swipe lying
    SINGLE_SWIPE_MIN_PERIOD or more after its start); every other run is
    quiet. With a debugger attached that run breaks, clears
    TimeStampInputPatternBegin and returns FALSE, and the remaining
    interrupts are all handled; with none it ends in the bug check. *)
Theorem C1_four_counted_swipes (s1 s2 s3 s4 : swipe) (d : DEVICE_EXTENSION) :
  device_h_sane h ->
  INPUT_PATTERN_NUM_OF_SWIPES = 4 ->
  TimeStampInputPatternBegin d = 0 ->
  counted_pattern s1 s2 s3 s4 = true ->
  let interrupts := s1 ++ s2 ++ s3 ++ s4 in
  let k := (length s1 + length s2 + length s3 + counting_index s4)%nat in
  exists before r after e,
    deliver interrupts d = before ++ r :: after
    /\ length before = k
    /\ nth_error interrupts k = Some e
    /\ Forall quiet before /\ Forall quiet after
    /\ Forall (fun r' => NumberOfSwipes (isr_context r') < 4) before
    /\ NumberOfSwipes (isr_context r) = 4
    /\ completed (KD_DEBUGGER_NOT_PRESENT e) r
    /\ (isr_result r = Returns FALSE ->
        length (before ++ r :: after) = length interrupts).
Proof.
  intros Hsane HN Hidle Hpat. cbv zeta.
  assert (Hbelow := deliver_quiet_below (sane_swipes h Hsane)
                      (s1 ++ s2 ++ s3 ++ s4) d (or_intror Hidle)).
  rewrite HN in Hbelow.
  unfold counted_pattern in Hpat. rewrite !withinb_app in Hpat.
  tests_to_facts.
  repeat match goal with
    | H : counted_rest _ _ = true |- _ =>
        unfold counted_rest in H; cbv zeta in H;
        apply andb_true_iff in H; destruct H as [?Hlo ?Hhi];
        apply Z.leb_le in Hlo, Hhi
    end.
  assert (Ho1 := counted_swipe_order s1 ltac:(assumption)).
  assert (Ho2 := counted_swipe_order s2 ltac:(assumption)).
  assert (Ho3 := counted_swipe_order s3 ltac:(assumption)).
  assert (Hf2 := withinb_first _ s2 ltac:(eassumption) ltac:(assumption)).
  assert (Hf3 := withinb_first _ s3 ltac:(eassumption) ltac:(assumption)).
  destruct (first_swipe_runs Hsane s1 d) as [Hq1 Ht1];
    try assumption; try lia.
  destruct (next_swipe_runs Hsane s2 _ _ _ _ _ Ht1) as [Hq2 Ht2];
    try assumption; try lia.
  destruct (next_swipe_runs Hsane s3 _ _ _ _ _ Ht2) as [Hq3 Ht3];
    try assumption; try lia.
  destruct (last_swipe_runs Hsane s4 _ _ _ _ _ Ht3)
    as (before & r & after & e & Hd & Hlen & Hnth & Hqb & Hqa & Hn & Hdone
        & Hfull);
    try assumption; try lia.
  rewrite (deliver_app s1), (deliver_app s2), (deliver_app s3), Hd in *
    by assumption.
  set (runs1 := deliver s1 d) in *.
  set (runs2 := deliver s2 _) in *.
  set (runs3 := deliver s3 _) in *.
  assert (L1 : length runs1 = length s1) by now apply deliver_quiet_length.
  assert (L2 : length runs2 = length s2) by now apply deliver_quiet_length.
  assert (L3 : length runs3 = length s3) by now apply deliver_quiet_length.
  exists (runs1 ++ runs2 ++ runs3 ++ before), r, after, e.
  repeat split.
  - now rewrite <- !app_assoc.
  - rewrite !length_app. lia.
  - rewrite !nth_error_app2 by lia. rewrite <- Hnth. f_equal. lia.
  - repeat (apply Forall_app; split); assumption.
  - assumption.
  - assert (Hq : Forall quiet (runs1 ++ runs2 ++ runs3 ++ before))
      by (repeat (apply Forall_app; split); assumption).
    rewrite !app_assoc in Hbelow. apply Forall_app in Hbelow.
    destruct Hbelow as [Hbelow _]. rewrite <- !app_assoc in Hbelow.
    revert Hq Hbelow. generalize (runs1 ++ runs2 ++ runs3 ++ before).
    intros l Hq Hbelow. induction Hq as [|x l Hx Hq IH]; constructor;
      inversion Hbelow; subst; auto.
  - lia.
  - assumption.
  - intros Hret. specialize (Hfull Hret).
    rewrite <- !app_assoc in *. rewrite !length_app in *. lia.
Qed.

End FourSwipes.

(** C1: the claim as stated fails. Four swipes of 5.1 s, interrupts at most
    0.2 s apart, rests of 7 s, 41.4 s in all, form the pattern of the claim;
    the last interrupt but one of each swipe is 4.95 s after its first, so no
    interrupt measures 5 s: no swipe is counted and no call is made, with
    either value of SINGLE_SWIPE_MAX_PERIOD. *)
Lemma C1_counterexample_short_swipes :
  claimed_pattern (nth_swipe short_swipe 0 0) (nth_swipe short_swipe 0 1)
    (nth_swipe short_swipe 0 2) (nth_swipe short_swipe 0 3) = true
  /\ length (@deliver device_h_10s (four_swipes short_swipe 0)
               zero_DEVICE_EXTENSION)
     = length (four_swipes short_swipe 0)
  /\ concat (map isr_calls
               (@deliver device_h_10s (four_swipes short_swipe 0)
                  zero_DEVICE_EXTENSION)) = []
  /\ concat (map isr_calls
               (@deliver device_h_15s (four_swipes short_swipe 0)
                  zero_DEVICE_EXTENSION)) = []
  /\ NumberOfSwipes
       (final_context zero_DEVICE_EXTENSION
          (@deliver device_h_10s (four_swipes short_swipe 0)
             zero_DEVICE_EXTENSION)) = 0.
Proof. vm_compute. repeat split. Qed.

(** * The theorems at sample inputs *)

Lemma device_h_10s_sane : device_h_sane device_h_10s.
Proof. constructor; vm_compute; (split; congruence) || congruence. Defined.

Lemma device_h_15s_sane : device_h_sane device_h_15s.
Proof. constructor; vm_compute; (split; congruence) || congruence. Defined.

(** C10 at a null GUID with a null value pointer, length 0 and a null
    context. *)
Lemma C10_witness :
  (0, 0, 0, 0) <> GUID_MONITOR_POWER_ON
  /\ @WpCrasherOnPowerSettingsChange device_h_10s (0, 0, 0, 0) None 0 None
       zero_memory
     = (STATUS_SUCCESS, zero_memory, []).
Proof.
  assert (H : (0, 0, 0, 0) <> GUID_MONITOR_POWER_ON) by discriminate.
  split; [exact H|].
  exact (@C10_other_setting_ignored device_h_10s (0, 0, 0, 0) None 0 None
           zero_memory H).
Defined.


(** C2 at the upper edge of the rest window, with SINGLE_SWIPE_MAX_PERIOD
    at 15 s: an interrupt exactly 15 s after the last one begins a swipe on
    a context whose first swipe was counted. *)
Lemma C2_witness :
  0 < @SINGLE_SWIPE_MIN_PERIOD device_h_15s
  /\ TimeStampInputPatternBegin rested_context <> 0
  /\ U64.sub (21 * SECOND) (TimeStampInputPatternBegin rested_context)
     <= @INPUT_PATTERN_MAX_PERIOD device_h_15s
  /\ SwipeThreholdReached rested_context = TRUE
  /\ TimeStampSwipeBegin rested_context = SECOND
  /\ TimeStampSwipeBegin
       (isr_context
          (@WpCrasherEvtInterruptIsr device_h_15s (21 * SECOND) 0
             rested_context)) = 21 * SECOND
  /\ SwipeThreholdReached
       (isr_context
          (@WpCrasherEvtInterruptIsr device_h_15s (21 * SECOND) 0
             rested_context)) = FALSE
  /\ TimeStampInputPatternBegin
       (isr_context
          (@WpCrasherEvtInterruptIsr device_h_15s (21 * SECOND) 0
             rested_context)) = TimeStampInputPatternBegin rested_context
  /\ NumberOfSwipes
       (isr_context
          (@WpCrasherEvtInterruptIsr device_h_15s (21 * SECOND) 0
             rested_context)) = NumberOfSwipes rested_context.
Proof.
  assert (H0 : 0 < @SINGLE_SWIPE_MIN_PERIOD device_h_15s)
    by (vm_compute; reflexivity).
  assert (H1 : TimeStampInputPatternBegin rested_context <> 0)
    by (vm_compute; discriminate).
  assert (H2 : U64.sub (21 * SECOND)
                 (TimeStampInputPatternBegin rested_context)
               <= @INPUT_PATTERN_MAX_PERIOD device_h_15s)
    by (vm_compute; discriminate).
  split; [exact H0|]. split; [exact H1|]. split; [exact H2|].
  split; [reflexivity|]. split; [reflexivity|].
  destruct (@C2_swipe_boundary device_h_15s (21 * SECOND) 0 rested_context
              H0 H1 H2) as [_ Hlong].
  assert (Hgap : @SINGLE_SWIPE_MAX_INTERVAL device_h_15s
                 < U64.sub (21 * SECOND)
                     (TimeStampLastInterrupt rested_context))
    by (vm_compute; reflexivity).
  destruct (Hlong Hgap) as (_ & _ & _ & Hin).
  assert (Hwin : @SINGLE_SWIPE_MIN_PERIOD device_h_15s
                 <= U64.sub (21 * SECOND)
                      (TimeStampLastInterrupt rested_context)
                 <= @SINGLE_SWIPE_MAX_PERIOD device_h_15s)
    by (vm_compute; split; discriminate).
  destruct (Hin Hwin) as (_ & _ & Hs & Hthr & _ & Hpb & Hn & _).
  split; [exact Hs|]. split; [exact Hthr|]. split; [exact Hpb|exact Hn].
Defined.

(** C8 at the interrupt that measures exactly SINGLE_SWIPE_MIN_PERIOD. *)
Lemma C8_witness :
  TimeStampInputPatternBegin swiping_context <> 0
  /\ U64.sub (6 * SECOND + SECOND / 10)
       (TimeStampInputPatternBegin swiping_context)
     <= @INPUT_PATTERN_MAX_PERIOD device_h_10s
  /\ U64.sub (6 * SECOND + SECOND / 10)
       (TimeStampLastInterrupt swiping_context)
     <= @SINGLE_SWIPE_MAX_INTERVAL device_h_10s
  /\ SwipeThreholdReached swiping_context = FALSE
  /\ NumberOfSwipes
       (isr_context
          (@WpCrasherEvtInterruptIsr device_h_10s (6 * SECOND + SECOND / 10) 0
             swiping_context))
     = U32.incr (NumberOfSwipes swiping_context)
  /\ SwipeThreholdReached
       (isr_context
          (@WpCrasherEvtInterruptIsr device_h_10s (6 * SECOND + SECOND / 10) 0
             swiping_context))
     = TRUE.
Proof.
  assert (H1 : TimeStampInputPatternBegin swiping_context <> 0)
    by (vm_compute; discriminate).
  assert (H2 : U64.sub (6 * SECOND + SECOND / 10)
                 (TimeStampInputPatternBegin swiping_context)
               <= @INPUT_PATTERN_MAX_PERIOD device_h_10s)
    by (vm_compute; discriminate).
  assert (H3 : U64.sub (6 * SECOND + SECOND / 10)
                 (TimeStampLastInterrupt swiping_context)
               <= @SINGLE_SWIPE_MAX_INTERVAL device_h_10s)
    by (vm_compute; discriminate).
  assert (H4 : SwipeThreholdReached swiping_context = FALSE) by reflexivity.
  split; [exact H1|]. split; [exact H2|]. split; [exact H3|].
  split; [exact H4|].
  destruct (@C8_min_period_boundary device_h_10s (6 * SECOND + SECOND / 10) 0
              swiping_context H1 H2 H3 H4) as [_ Hcounts].
  apply Hcounts. vm_compute. split; discriminate.
Defined.

(** C7 on four long swipes with no debugger attached: the last run ends in
    the bug check. *)
Lemma C7_witness :
  1 <= @INPUT_PATTERN_NUM_OF_SWIPES device_h_10s < U32.modulus
  /\ Forall (fun er : interrupt * isr_run =>
            let r := snd er in
            0 <= NumberOfSwipes (isr_context r)
              <= @INPUT_PATTERN_NUM_OF_SWIPES device_h_10s
            /\ (NumberOfSwipes (isr_context r) = @INPUT_PATTERN_NUM_OF_SWIPES device_h_10s
                -> (IS_DEBUGGER_ATTACHED (KD_DEBUGGER_NOT_PRESENT (fst er))
                    = TRUE
                    /\ isr_calls r = [debugbreak]
                    /\ isr_result r = Returns FALSE
                    /\ TimeStampInputPatternBegin (isr_context r) = 0)
                   \/ (IS_DEBUGGER_ATTACHED (KD_DEBUGGER_NOT_PRESENT (fst er))
                       = FALSE
                       /\ isr_calls r
                          = [KeBugCheckEx MANUALLY_INITIATED_CRASH 1 0 0 0]
                       /\ isr_result r = NeverReturns
                       /\ TimeStampInputPatternBegin (isr_context r) <> 0))
            /\ (NumberOfSwipes (isr_context r) < @INPUT_PATTERN_NUM_OF_SWIPES device_h_10s
                -> quiet r))
       (combine (four_swipes long_swipe 1)
          (@deliver device_h_10s (four_swipes long_swipe 1)
             zero_DEVICE_EXTENSION))
  /\ (forall (e : interrupt) (d : DEVICE_EXTENSION),
        isr_result (@isr device_h_10s e d) = NeverReturns ->
        TimeStampInputPatternBegin (isr_context (@isr device_h_10s e d))
        = TimeStampInputPatternBegin d
        /\ TimeStampInputPatternBegin d <> 0).
Proof.
  assert (H : 1 <= @INPUT_PATTERN_NUM_OF_SWIPES device_h_10s < U32.modulus)
    by (vm_compute; split; congruence).
  split; [exact H|].
  exact (@C7_swipe_count_bounded device_h_10s (four_swipes long_swipe 1) H).
Defined.

(** C1 on four long swipes: WpCrasherDoBugCheck is reached on interrupt 116
    and on no other. *)
Lemma C1_witness :
  device_h_sane device_h_10s
  /\ @INPUT_PATTERN_NUM_OF_SWIPES device_h_10s = 4
  /\ TimeStampInputPatternBegin zero_DEVICE_EXTENSION = 0
  /\ @counted_pattern device_h_10s
       (nth_swipe long_swipe 0 0) (nth_swipe long_swipe 0 1)
       (nth_swipe long_swipe 0 2) (nth_swipe long_swipe 0 3) = true
  /\ exists before r after e,
       @deliver device_h_10s (four_swipes long_swipe 0) zero_DEVICE_EXTENSION
       = before ++ r :: after
       /\ length before = 116%nat
       /\ nth_error (four_swipes long_swipe 0) 116 = Some e
       /\ Forall quiet before /\ Forall quiet after
       /\ Forall (fun r' => NumberOfSwipes (isr_context r') < 4) before
       /\ NumberOfSwipes (isr_context r) = 4
       /\ completed (KD_DEBUGGER_NOT_PRESENT e) r
       /\ (isr_result r = Returns FALSE ->
           length (before ++ r :: after)
           = length (four_swipes long_swipe 0)).
Proof.
  assert (H2 : @INPUT_PATTERN_NUM_OF_SWIPES device_h_10s = 4) by reflexivity.
  assert (H3 : TimeStampInputPatternBegin zero_DEVICE_EXTENSION = 0)
    by reflexivity.
  assert (H4 : @counted_pattern device_h_10s
                 (nth_swipe long_swipe 0 0) (nth_swipe long_swipe 0 1)
                 (nth_swipe long_swipe 0 2) (nth_swipe long_swipe 0 3) = true)
    by (vm_compute; reflexivity).
  split; [exact device_h_10s_sane|]. split; [exact H2|].
  split; [exact H3|]. split; [exact H4|].
  exact (@C1_four_counted_swipes device_h_10s
           (nth_swipe long_swipe 0 0) (nth_swipe long_swipe 0 1)
           (nth_swipe long_swipe 0 2) (nth_swipe long_swipe 0 3)
           zero_DEVICE_EXTENSION device_h_10s_sane H2 H3 H4).
Defined.

(** * Further properties of the routines *)

(** ** Cleanup *)

(** X1. WpCrasherEvtDeviceContextCleanup unregisters the power callback
    exactly when a handle is registered, clears the handle and changes no
    other field; a second cleanup makes no call and changes nothing, so the
    callback is never unregistered twice. *)
Theorem X1_cleanup_unregisters_once (d : DEVICE_EXTENSION) :
  let first := WpCrasherEvtDeviceContextCleanup d in
  let second := WpCrasherEvtDeviceContextCleanup (fst first) in
  fst first = set_MonitorChangeNotificationHandle None d
  /\ snd first = match MonitorChangeNotificationHandle d with
                 | Some handle => [PoUnregisterPowerSettingCallback handle]
                 | None => []
                 end
  /\ second = (fst first, []).
Proof.
  cbv zeta. unfold WpCrasherEvtDeviceContextCleanup.
  destruct d as [io [handle|] lp pb sb li n thr]; cbn; auto.
Qed.

(** ** What each routine leaves alone *)

Section Frames.
Context {h : device_h}.

Lemma isr_frame (t kd : Z) (d : DEVICE_EXTENSION) :
  let r := WpCrasherEvtInterruptIsr t kd d in
  InterruptObject (isr_context r) = InterruptObject d
  /\ MonitorChangeNotificationHandle (isr_context r)
     = MonitorChangeNotificationHandle d
  /\ LastProcessedMonitorState (isr_context r) = LastProcessedMonitorState d.
Proof.
  cbv zeta. unfold WpCrasherEvtInterruptIsr, Isr_count_swipe, Exit.
  destruct (WpCrasherDoBugCheck_cases kd) as [(_ & _ & ->)|(_ & _ & ->)];
    split_tests; cbn; auto.
Qed.

Lemma isr_calls_cases (t kd : Z) (d : DEVICE_EXTENSION) :
  let r := WpCrasherEvtInterruptIsr t kd d in
  isr_calls r = []
  \/ isr_calls r = [debugbreak]
  \/ isr_calls r = [KeBugCheckEx MANUALLY_INITIATED_CRASH 1 0 0 0].
Proof.
  cbv zeta. unfold WpCrasherEvtInterruptIsr, Isr_count_swipe, Exit.
  destruct (WpCrasherDoBugCheck_cases kd) as [(_ & _ & ->)|(_ & _ & ->)];
    split_tests; cbn; auto.
Qed.



(** X2. The interrupt routine leaves InterruptObject,
    MonitorChangeNotificationHandle and LastProcessedMonitorState as they
    were, and the only calls it ever makes are the breakpoint or the bug
    check with MANUALLY_INITIATED_CRASH: it never reports the interrupt
    active or inactive and never unregisters the power callback. *)
Theorem X2_isr_frame (t kd : Z) (d : DEVICE_EXTENSION) :
  let r := WpCrasherEvtInterruptIsr t kd d in
  InterruptObject (isr_context r) = InterruptObject d
  /\ MonitorChangeNotificationHandle (isr_context r)
     = MonitorChangeNotificationHandle d
  /\ LastProcessedMonitorState (isr_context r) = LastProcessedMonitorState d
  /\ (isr_calls r = []
      \/ isr_calls r = [debugbreak]
      \/ isr_calls r = [KeBugCheckEx MANUALLY_INITIATED_CRASH 1 0 0 0]).
Proof.
  cbv zeta. destruct (isr_frame t kd d) as (H1 & H2 & H3).
  repeat split; auto. apply isr_calls_cases.
Qed.

(** X3. The power callback changes at most LastProcessedMonitorState, and
    only in the context of the device it was given: the pattern fields, the
    interrupt object and the handle of every device are as before. It makes
    at most one call, and none when it returns STATUS_INVALID_PARAMETER, the
    only status it returns besides STATUS_SUCCESS. *)
Theorem X3_power_frame (SettingGuid : GUID) (Value : option Z)
    (ValueLength : Z) (CbContext : option WDFDEVICE)
    (GetDeviceContext : WDFDEVICE -> DEVICE_EXTENSION) :
  let '(status, memory, calls) :=
    WpCrasherOnPowerSettingsChange SettingGuid Value ValueLength CbContext
      GetDeviceContext in
  (forall d,
     memory d
     = set_LastProcessedMonitorState (LastProcessedMonitorState (memory d))
         (GetDeviceContext d))
  /\ (forall d, CbContext <> Some d -> memory d = GetDeviceContext d)
  /\ (status = STATUS_SUCCESS
      \/ (status = STATUS_INVALID_PARAMETER /\ calls = []))
  /\ (length calls <= 1)%nat.
Proof.
  assert (Heta : forall c,
             c = set_LastProcessedMonitorState (LastProcessedMonitorState c) c)
    by (intros []; reflexivity).
  unfold WpCrasherOnPowerSettingsChange.
  destruct (InlineIsEqualGUID SettingGuid GUID_MONITOR_POWER_ON);
    cbn [negb]; [|repeat split; auto].
  destruct Value as [monitorState|], CbContext as [fxDevice|];
    cbn [is_NULL orb]; rewrite ?orb_true_r, ?orb_false_r;
    try (repeat split; auto).
  destruct (ValueLength =? sizeof_ULONG); cbn [negb];
    [|repeat split; auto].
  split_tests; (split; [|split; [|split; [auto|cbn; lia]]]); intros d;
    auto; destruct (d =? fxDevice) eqn:Ed; tests_to_facts; subst;
    auto; try congruence;
    cbn [LastProcessedMonitorState set_LastProcessedMonitorState];
    destruct (GetDeviceContext fxDevice); reflexivity.
Qed.

End Frames.

(** ** The two callbacks do not interfere *)

Section Commute.
Context {h : device_h}.


(** X5. With a positive SINGLE_SWIPE_MIN_PERIOD, a call reaches
    WpCrasherDoBugCheck exactly when a pattern is being recorded, the
    interrupt is within INPUT_PATTERN_MAX_PERIOD of its start and within
    SINGLE_SWIPE_MAX_INTERVAL of the last interrupt, the swipe measured up
    to that last interrupt has a length within [SINGLE_SWIPE_MIN_PERIOD,
    SINGLE_SWIPE_MAX_PERIOD] and is not counted yet, and counting it brings
    NumberOfSwipes to INPUT_PATTERN_NUM_OF_SWIPES. In particular never on
    the first interrupt of a pattern or of a swipe. *)
Theorem X5_fires_exactly_when (t kd : Z) (d : DEVICE_EXTENSION) :
  0 < SINGLE_SWIPE_MIN_PERIOD ->
  isr_calls (WpCrasherEvtInterruptIsr t kd d) <> [] <->
  TimeStampInputPatternBegin d <> 0
  /\ U64.sub t (TimeStampInputPatternBegin d) <= INPUT_PATTERN_MAX_PERIOD
  /\ U64.sub t (TimeStampLastInterrupt d) <= SINGLE_SWIPE_MAX_INTERVAL
  /\ SINGLE_SWIPE_MIN_PERIOD
     <= U64.sub (TimeStampLastInterrupt d) (TimeStampSwipeBegin d)
     <= SINGLE_SWIPE_MAX_PERIOD
  /\ SwipeThreholdReached d <> TRUE
  /\ U32.incr (NumberOfSwipes d) = INPUT_PATTERN_NUM_OF_SWIPES.
Proof.
  intros Hmin.
  unfold WpCrasherEvtInterruptIsr, Isr_count_swipe, Exit.
  destruct (WpCrasherDoBugCheck_cases kd) as [(_ & _ & ->)|(_ & _ & ->)];
    split_tests; cbn [isr_calls SwipeThreholdReached NumberOfSwipes
                      set_TimeStampLastInterrupt set_TimeStampSwipeBegin
                      set_SwipeThreholdReached set_NumberOfSwipes] in *;
    tests_to_facts;
    (split; [intros Hcalls; try (now contradiction Hcalls)
            |intros (Hf1 & Hf2 & Hf3 & Hf4 & Hf5 & Hf6)]);
    try lia; try congruence; try discriminate;
    repeat split; try lia; try congruence;
    repeat match goal with
      | H : _ \/ _ |- _ => destruct H
      end; try lia; try congruence.
Qed.

(** X6. A continuous touch never crashes the device: from an idle context,
    interrupts that follow each other at most SINGLE_SWIPE_MAX_INTERVAL
    apart, however many and however long, are all handled without reaching
    WpCrasherDoBugCheck (the pattern needs more than one swipe). *)
Theorem X6_continuous_touch_never_fires (body : list interrupt)
    (d : DEVICE_EXTENSION) (prev : Z) :
  device_h_sane h ->
  1 < INPUT_PATTERN_NUM_OF_SWIPES ->
  TimeStampInputPatternBegin d = 0 ->
  gapsb SINGLE_SWIPE_MAX_INTERVAL prev body = true ->
  Forall quiet (deliver body d)
  /\ length (deliver body d) = length body.
Proof.
  intros Hsane HN Hidle Hgaps.
  assert (Hq : Forall quiet (deliver body d))
    by (apply (restart_quiet Hsane body d prev); auto; now left).
  split; [assumption|now apply deliver_quiet_length].
Qed.

End Commute.

(** ** Time that never goes back *)

Section Monotone.
Context {h : device_h}.

Hypothesis HN : 1 <= INPUT_PATTERN_NUM_OF_SWIPES < U32.modulus.

(** One call on a paced context, at a time not before the last one. *)
Lemma isr_paced (e : interrupt) (d : DEVICE_EXTENSION) (start prev : Z) :
  0 <= start <= prev -> prev <= time e < U64.modulus ->
  paced start prev d ->
  let r := isr e d in
  (forall ret, isr_result r = Returns ret -> paced start (time e) (isr_context r))
  /\ (TimeStampInputPatternBegin (isr_context r) = 0
      \/ (0 < TimeStampInputPatternBegin (isr_context r)
          /\ TimeStampInputPatternBegin (isr_context r)
             <= TimeStampSwipeBegin (isr_context r)
          /\ TimeStampSwipeBegin (isr_context r)
             <= TimeStampLastInterrupt (isr_context r)
          /\ TimeStampLastInterrupt (isr_context r) = time e))
  /\ (isr_calls r <> [] ->
      start <= TimeStampInputPatternBegin d
      /\ (2 * INPUT_PATTERN_NUM_OF_SWIPES - 1) * SINGLE_SWIPE_MIN_PERIOD
         <= time e - TimeStampInputPatternBegin d
         <= INPUT_PATTERN_MAX_PERIOD).
Proof.
  intros Hstart Ht Hd. cbv zeta. unfold isr.
  destruct (Z.eq_dec (TimeStampInputPatternBegin d) 0) as [Hidle|Hp].
  - rewrite isr_cold_start by assumption. unfold paced. cbn.
    repeat split; try (intros; congruence).
    + intros ret _.
      destruct (Z.eq_dec (time e) 0) as [H0|H0]; [now left|right].
      repeat split; try lia; intros; try discriminate; lia.
    + destruct (Z.eq_dec (time e) 0) as [H0|H0]; [now left|right]. lia.
  - destruct Hd as [Hidle|(Hpos & Hs & Hps & Hsl & Hl & Hc & Hopen & Hdone)];
      [contradiction|].
    assert (Hincr : U32.incr (NumberOfSwipes d) = NumberOfSwipes d + 1)
      by (apply U32_incr_exact; lia).
    assert (E1 : U64.sub (time e) (TimeStampInputPatternBegin d)
                 = time e - TimeStampInputPatternBegin d)
      by (apply U64_sub_exact; lia).
    assert (E2 : U64.sub (time e) (TimeStampLastInterrupt d)
                 = time e - TimeStampLastInterrupt d)
      by (apply U64_sub_exact; lia).
    assert (E3 : U64.sub (TimeStampLastInterrupt d) (TimeStampSwipeBegin d)
                 = TimeStampLastInterrupt d - TimeStampSwipeBegin d)
      by (apply U64_sub_exact; lia).
    unfold WpCrasherEvtInterruptIsr, Isr_count_swipe, Exit, paced.
    rewrite E1, E2, E3.
    cbn [NumberOfSwipes SwipeThreholdReached set_TimeStampLastInterrupt
         set_TimeStampSwipeBegin set_SwipeThreholdReached set_NumberOfSwipes].
    rewrite Hincr.
    set (m := SINGLE_SWIPE_MIN_PERIOD) in *.
    set (n := INPUT_PATTERN_NUM_OF_SWIPES) in *.
    destruct (Z.eq_dec (SwipeThreholdReached d) TRUE) as [Hthr|Hthr];
      [destruct (Hdone Hthr) as (Hc1 & Hpace & Hlen); clear Hopen Hdone
      |specialize (Hopen Hthr); clear Hdone];
      (destruct (WpCrasherDoBugCheck_cases (KD_DEBUGGER_NOT_PRESENT e))
         as [(_ & _ & ->)|(_ & _ & ->)]);
      split_tests; tests_to_facts;
      cbn [isr_context isr_calls isr_result TimeStampInputPatternBegin
           TimeStampSwipeBegin TimeStampLastInterrupt NumberOfSwipes
           SwipeThreholdReached set_TimeStampInputPatternBegin
           set_TimeStampSwipeBegin set_TimeStampLastInterrupt
           set_NumberOfSwipes set_SwipeThreholdReached] in *;
      try congruence; try discriminate;
      (split; [intros ret Hret; try discriminate; try (now left);
               right; repeat split; try lia; intros; try discriminate;
               try contradiction; try lia; repeat split; nia
              |split; [try (now left); right; lia
                      |intros Hcalls; try (now contradiction Hcalls);
                       repeat split; try lia; nia]]).
Qed.

Lemma deliver_paced (interrupts : list interrupt) :
  forall d start prev,
  0 <= start <= prev ->
  monotoneb prev interrupts = true ->
  paced start prev d ->
  Forall (fun er : interrupt * isr_run =>
            let r := snd er in
            (TimeStampInputPatternBegin (isr_context r) = 0
             \/ (0 < TimeStampInputPatternBegin (isr_context r)
                 /\ TimeStampInputPatternBegin (isr_context r)
                    <= TimeStampSwipeBegin (isr_context r)
                 /\ TimeStampSwipeBegin (isr_context r)
                    <= TimeStampLastInterrupt (isr_context r)
                 /\ TimeStampLastInterrupt (isr_context r) = time (fst er)))
            /\ (isr_calls r <> [] ->
                (2 * INPUT_PATTERN_NUM_OF_SWIPES - 1) * SINGLE_SWIPE_MIN_PERIOD
                <= time (fst er) - start
                /\ (2 * INPUT_PATTERN_NUM_OF_SWIPES - 1)
                   * SINGLE_SWIPE_MIN_PERIOD <= INPUT_PATTERN_MAX_PERIOD))
         (combine interrupts (deliver interrupts d)).
Proof.
  induction interrupts as [|e rest IH]; intros d start prev Hstart Hmono Hd.
  - constructor.
  - cbn [monotoneb] in Hmono. tests_to_facts.
    cbn [deliver combine].
    destruct (isr_paced e d start prev) as (Hnext & Hord & Hfire);
      try assumption; try lia.
    constructor.
    + cbn [fst snd]. split; [assumption|].
      intros Hcalls. specialize (Hfire Hcalls). lia.
    + destruct (isr_result (isr e d)) as [ret|] eqn:Hret.
      * apply (IH _ start (time e)); try assumption; try lia.
        now apply (Hnext ret).
      * destruct rest; constructor.
Qed.

(** A call that makes no call into the kernel returns FALSE. *)
Lemma isr_no_call_quiet (e : interrupt) (d : DEVICE_EXTENSION) :
  isr_calls (isr e d) = [] -> quiet (isr e d).
Proof.
  intros Hcalls. split; [assumption|]. revert Hcalls.
  unfold isr, WpCrasherEvtInterruptIsr, Isr_count_swipe, Exit.
  destruct (WpCrasherDoBugCheck_cases (KD_DEBUGGER_NOT_PRESENT e))
    as [(_ & _ & ->)|(_ & _ & ->)];
    split_tests; cbn; intros; congruence.
Qed.

Lemma deliver_paced_quiet (interrupts : list interrupt) :
  INPUT_PATTERN_MAX_PERIOD
  < (2 * INPUT_PATTERN_NUM_OF_SWIPES - 1) * SINGLE_SWIPE_MIN_PERIOD ->
  forall d start prev,
  0 <= start <= prev ->
  monotoneb prev interrupts = true ->
  paced start prev d ->
  Forall quiet (deliver interrupts d).
Proof.
  intros Hshort.
  induction interrupts as [|e rest IH]; intros d start prev Hstart Hmono Hd.
  - constructor.
  - cbn [monotoneb] in Hmono. tests_to_facts. cbn [deliver].
    destruct (isr_paced e d start prev) as (Hnext & Hord & Hfire);
      try assumption; try lia.
    assert (Hq : quiet (isr e d)).
    { apply isr_no_call_quiet.
      destruct (isr_calls (isr e d)) as [|c calls] eqn:Hcalls;
        [reflexivity|].
      assert (Hne : c :: calls <> []) by discriminate.
      specialize (Hfire Hne). lia. }
    constructor; [assumption|].
    destruct Hq as [_ Hret]. rewrite Hret.
    apply (IH _ start (time e)); try assumption; try lia.
    now apply (Hnext FALSE).
Qed.

End Monotone.

Section MonotoneTime.
Context {h : device_h}.

(** X7. When the times read never go back and fit a ULONGLONG, after every
    call on a context that started idle the context is idle again or holds
    0 < TimeStampInputPatternBegin <= TimeStampSwipeBegin <=
    TimeStampLastInterrupt with the last equal to the time just read: the
    three subtractions of the next call cannot wrap around. *)
Theorem X7_time_stamps_ordered (interrupts : list interrupt)
    (d : DEVICE_EXTENSION) (start : Z) :
  1 <= INPUT_PATTERN_NUM_OF_SWIPES < U32.modulus ->
  TimeStampInputPatternBegin d = 0 ->
  0 <= start ->
  monotoneb start interrupts = true ->
  Forall (fun er : interrupt * isr_run =>
            let r := snd er in
            TimeStampInputPatternBegin (isr_context r) = 0
            \/ (0 < TimeStampInputPatternBegin (isr_context r)
                /\ TimeStampInputPatternBegin (isr_context r)
                   <= TimeStampSwipeBegin (isr_context r)
                /\ TimeStampSwipeBegin (isr_context r)
                   <= TimeStampLastInterrupt (isr_context r)
                /\ TimeStampLastInterrupt (isr_context r) = time (fst er)))
         (combine interrupts (deliver interrupts d)).
Proof.
  intros HN Hidle Hstart Hmono.
  eapply Forall_impl;
    [|apply (deliver_paced HN interrupts d start start);
      [lia|assumption|now left]].
  intros [e r] [Hord _]. exact Hord.
Qed.

(** X8. The bug check cannot come early: on times that never go back, from
    an idle context, a call reaches WpCrasherDoBugCheck no sooner than
    (2 * INPUT_PATTERN_NUM_OF_SWIPES - 1) * SINGLE_SWIPE_MIN_PERIOD after the
    first interrupt (35 s for four swipes of 5 s), since every swipe and
    every rest between two swipes takes SINGLE_SWIPE_MIN_PERIOD. *)
Theorem X8_no_early_bug_check (interrupts : list interrupt)
    (d : DEVICE_EXTENSION) (start : Z) :
  1 <= INPUT_PATTERN_NUM_OF_SWIPES < U32.modulus ->
  TimeStampInputPatternBegin d = 0 ->
  0 <= start ->
  monotoneb start interrupts = true ->
  Forall (fun er : interrupt * isr_run =>
            isr_calls (snd er) <> [] ->
            (2 * INPUT_PATTERN_NUM_OF_SWIPES - 1) * SINGLE_SWIPE_MIN_PERIOD
            <= time (fst er) - start)
         (combine interrupts (deliver interrupts d)).
Proof.
  intros HN Hidle Hstart Hmono.
  eapply Forall_impl;
    [|apply (deliver_paced HN interrupts d start start);
      [lia|assumption|now left]].
  intros [e r] [_ Hfire] Hcalls. now apply Hfire.
Qed.

(** X9. The pattern period must leave room for the pattern: when
    INPUT_PATTERN_MAX_PERIOD is below
    (2 * INPUT_PATTERN_NUM_OF_SWIPES - 1) * SINGLE_SWIPE_MIN_PERIOD, no
    sequence of interrupts at times that never go back reaches
    WpCrasherDoBugCheck from an idle context; every interrupt is handled
    and returns FALSE. *)
Theorem X9_period_too_short_never_fires (interrupts : list interrupt)
    (d : DEVICE_EXTENSION) (start : Z) :
  1 <= INPUT_PATTERN_NUM_OF_SWIPES < U32.modulus ->
  INPUT_PATTERN_MAX_PERIOD
  < (2 * INPUT_PATTERN_NUM_OF_SWIPES - 1) * SINGLE_SWIPE_MIN_PERIOD ->
  TimeStampInputPatternBegin d = 0 ->
  0 <= start ->
  monotoneb start interrupts = true ->
  Forall quiet (deliver interrupts d)
  /\ length (deliver interrupts d) = length interrupts.
Proof.
  intros HN Hshort Hidle Hstart Hmono.
  assert (Hq : Forall quiet (deliver interrupts d)).
  { apply (deliver_paced_quiet HN interrupts Hshort d start start);
      [lia|assumption|now left]. }
  split; [assumption|now apply deliver_quiet_length].
Qed.

End MonotoneTime.

(** ** Sequences of power notifications *)

Section NotificationSequences.
Context {h : device_h}.

Lemma notify_ignored (n : notification)
    (memory : WDFDEVICE -> DEVICE_EXTENSION) :
  well_formed n = false ->
  exists status, notify n memory = (status, memory, []).
Proof.
  unfold well_formed, notify, WpCrasherOnPowerSettingsChange.
  destruct n as [g v len c]; cbn [notified_SettingGuid notified_Value
    notified_ValueLength notified_CbContext].
  destruct (InlineIsEqualGUID g GUID_MONITOR_POWER_ON); cbn [andb negb];
    [|eauto].
  intros H. apply negb_false_iff in H. rewrite H. eauto.
Qed.

(** X10. The notifications the callback does not read (another GUID, a null
    value or context, a wrong length) never matter: dropping them from a
    sequence of notifications gives the same memory and the same calls. *)
Theorem X10_ignored_notifications_drop_out (ns : list notification)
    (memory : WDFDEVICE -> DEVICE_EXTENSION) :
  notify_all (filter well_formed ns) memory = notify_all ns memory.
Proof.
  revert memory. induction ns as [|n ns IH]; intros memory.
  - reflexivity.
  - cbn [filter]. destruct (well_formed n) eqn:Hn.
    + cbn [notify_all]. destruct (notify n memory) as [[status m1] c1].
      now rewrite IH.
    + destruct (notify_ignored n memory Hn) as [status Hrun].
      cbn [notify_all]. rewrite Hrun, IH.
      now destruct (notify_all ns memory).
Qed.

Lemma notify_one_device (n : notification)
    (memory : WDFDEVICE -> DEVICE_EXTENSION) (fxDevice : WDFDEVICE) :
  (forall d, notified_CbContext n = Some d -> d = fxDevice) ->
  let '(_, memory1, calls1) := notify n memory in
  InterruptObject (memory1 fxDevice) = InterruptObject (memory fxDevice)
  /\ ((calls1 = []
       /\ LastProcessedMonitorState (memory1 fxDevice)
          = LastProcessedMonitorState (memory fxDevice))
      \/ (calls1 = [WdfInterruptReportActive
                      (InterruptObject (memory fxDevice))]
          /\ LastProcessedMonitorState (memory1 fxDevice) = MONITOR_IS_ON
          /\ LastProcessedMonitorState (memory fxDevice) <> MONITOR_IS_ON)
      \/ (calls1 = [WdfInterruptReportInactive
                      (InterruptObject (memory fxDevice))]
          /\ LastProcessedMonitorState (memory1 fxDevice) <> MONITOR_IS_ON)).
Proof.
  intros Hdev. unfold notify, WpCrasherOnPowerSettingsChange.
  destruct n as [g v len c]; cbn [notified_SettingGuid notified_Value
    notified_ValueLength notified_CbContext] in *.
  destruct (InlineIsEqualGUID g GUID_MONITOR_POWER_ON); cbn [negb];
    [|auto].
  destruct v as [monitorState|], c as [device|];
    cbn [is_NULL orb]; rewrite ?orb_true_r, ?orb_false_r; auto.
  destruct (len =? sizeof_ULONG); cbn [negb]; auto.
  rewrite (Hdev device eq_refl).
  destruct (LastProcessedMonitorState (memory fxDevice) =? monitorState)
    eqn:Esame; auto.
  destruct (monitorState =? MONITOR_IS_ON) eqn:Eon;
    rewrite Z.eqb_refl;
    cbn [InterruptObject LastProcessedMonitorState
         set_LastProcessedMonitorState];
    tests_to_facts; (split; [reflexivity|]).
  - right; left. repeat split; congruence.
  - right; right. repeat split; congruence.
Qed.

(** X11. For the notifications of one device the reports follow the
    monitor state: if the interrupt was reported active exactly when
    LastProcessedMonitorState was MONITOR_IS_ON before a sequence of
    notifications, it is so after it; WdfInterruptReportActive is never
    called twice without a WdfInterruptReportInactive in between; and every
    call is one of these two on the device's interrupt object. *)
Theorem X11_reports_follow_monitor_state (ns : list notification)
    (memory : WDFDEVICE -> DEVICE_EXTENSION) (fxDevice : WDFDEVICE) :
  Forall (fun n => forall d, notified_CbContext n = Some d -> d = fxDevice)
    ns ->
  let '(memory', calls) := notify_all ns memory in
  let on := LastProcessedMonitorState (memory fxDevice) =? MONITOR_IS_ON in
  reported on calls
  = (LastProcessedMonitorState (memory' fxDevice) =? MONITOR_IS_ON)
  /\ no_double_active on calls = true
  /\ Forall (fun c =>
               c = WdfInterruptReportActive (InterruptObject (memory fxDevice))
               \/ c = WdfInterruptReportInactive
                        (InterruptObject (memory fxDevice)))
            calls.
Proof.
  intros Hns. revert memory.
  induction Hns as [|n ns Hn Hns IH]; intros memory.
  - cbn. auto.
  - cbn [notify_all].
    pose proof (notify_one_device n memory fxDevice Hn) as Hstep.
    destruct (notify n memory) as [[status m1] c1].
    specialize (IH m1). destruct (notify_all ns m1) as [m2 c2].
    cbv zeta in *. destruct Hstep as (Hio & Hcase).
    destruct IH as (Hrep & Hdouble & Hall). rewrite Hio in Hall.
    destruct Hcase as [(-> & Hlast)|[(-> & Hon & Hoff)|(-> & Hoff)]].
    + rewrite Hlast in *. cbn [app]. auto.
    + rewrite Hon, Z.eqb_refl in *.
      rewrite (proj2 (Z.eqb_neq _ _) Hoff).
      cbn [app reported no_double_active is_active andb negb].
      repeat split; auto.
    + rewrite (proj2 (Z.eqb_neq _ _) Hoff) in *.
      cbn [app reported no_double_active is_active andb negb].
      rewrite andb_false_r. repeat split; auto.
Qed.

End NotificationSequences.

(** ** Cleanup and silence *)

Section CleanupAndSilence.
Context {h : device_h}.


(** X13. A long silence forgets the pattern: whatever was recorded, an
    interrupt that comes more than SINGLE_SWIPE_MAX_PERIOD after the last one
    clears TimeStampInputPatternBegin (by the overall timeout or by the rest
    window), makes no call and counts no swipe. *)
Theorem X13_long_silence_resets (t kd : Z) (d : DEVICE_EXTENSION) :
  SINGLE_SWIPE_MAX_INTERVAL <= SINGLE_SWIPE_MAX_PERIOD ->
  TimeStampInputPatternBegin d <> 0 ->
  U64.sub t (TimeStampLastInterrupt d) > SINGLE_SWIPE_MAX_PERIOD ->
  let r := WpCrasherEvtInterruptIsr t kd d in
  TimeStampInputPatternBegin (isr_context r) = 0
  /\ quiet r
  /\ NumberOfSwipes (isr_context r) = NumberOfSwipes d.
Proof.
  intros Hconst Hp Hgap. cbv zeta.
  unfold WpCrasherEvtInterruptIsr, Isr_count_swipe, Exit, quiet.
  destruct (WpCrasherDoBugCheck_cases kd) as [(_ & _ & ->)|(_ & _ & ->)];
    split_tests; tests_to_facts; cbn; repeat split; auto;
    try congruence; lia.
Qed.

End CleanupAndSilence.

(** ** The further properties at sample inputs *)

Lemma X5_witness :
  0 < @SINGLE_SWIPE_MIN_PERIOD device_h_10s
  /\ (isr_calls
        (@WpCrasherEvtInterruptIsr device_h_10s (6 * SECOND + SECOND / 10) 0
           swiping_context) <> [] <->
      TimeStampInputPatternBegin swiping_context <> 0
      /\ U64.sub (6 * SECOND + SECOND / 10)
           (TimeStampInputPatternBegin swiping_context)
         <= @INPUT_PATTERN_MAX_PERIOD device_h_10s
      /\ U64.sub (6 * SECOND + SECOND / 10)
           (TimeStampLastInterrupt swiping_context)
         <= @SINGLE_SWIPE_MAX_INTERVAL device_h_10s
      /\ @SINGLE_SWIPE_MIN_PERIOD device_h_10s
         <= U64.sub (TimeStampLastInterrupt swiping_context)
              (TimeStampSwipeBegin swiping_context)
         <= @SINGLE_SWIPE_MAX_PERIOD device_h_10s
      /\ SwipeThreholdReached swiping_context <> TRUE
      /\ U32.incr (NumberOfSwipes swiping_context)
         = @INPUT_PATTERN_NUM_OF_SWIPES device_h_10s).
Proof.
  assert (H0 : 0 < @SINGLE_SWIPE_MIN_PERIOD device_h_10s)
    by (vm_compute; reflexivity).
  split; [exact H0|].
  exact (@X5_fires_exactly_when device_h_10s (6 * SECOND + SECOND / 10) 0
           swiping_context H0).
Defined.

Lemma X6_witness :
  device_h_sane device_h_10s
  /\ 1 < @INPUT_PATTERN_NUM_OF_SWIPES device_h_10s
  /\ TimeStampInputPatternBegin zero_DEVICE_EXTENSION = 0
  /\ gapsb (@SINGLE_SWIPE_MAX_INTERVAL device_h_10s) SECOND long_touch = true
  /\ Forall quiet (@deliver device_h_10s long_touch zero_DEVICE_EXTENSION)
  /\ length (@deliver device_h_10s long_touch zero_DEVICE_EXTENSION)
     = length long_touch.
Proof.
  assert (H1 : 1 < @INPUT_PATTERN_NUM_OF_SWIPES device_h_10s)
    by (vm_compute; reflexivity).
  assert (H2 : TimeStampInputPatternBegin zero_DEVICE_EXTENSION = 0)
    by reflexivity.
  assert (H3 : gapsb (@SINGLE_SWIPE_MAX_INTERVAL device_h_10s) SECOND
                 long_touch = true)
    by (vm_compute; reflexivity).
  split; [exact device_h_10s_sane|]. split; [exact H1|].
  split; [exact H2|]. split; [exact H3|].
  exact (@X6_continuous_touch_never_fires device_h_10s long_touch
           zero_DEVICE_EXTENSION SECOND device_h_10s_sane H1 H2 H3).
Defined.

Lemma X7_witness :
  1 <= @INPUT_PATTERN_NUM_OF_SWIPES device_h_10s < U32.modulus
  /\ TimeStampInputPatternBegin zero_DEVICE_EXTENSION = 0
  /\ 0 <= SECOND
  /\ monotoneb SECOND (four_swipes long_swipe 0) = true
  /\ Forall (fun er : interrupt * isr_run =>
               let r := snd er in
               TimeStampInputPatternBegin (isr_context r) = 0
               \/ (0 < TimeStampInputPatternBegin (isr_context r)
                   /\ TimeStampInputPatternBegin (isr_context r)
                      <= TimeStampSwipeBegin (isr_context r)
                   /\ TimeStampSwipeBegin (isr_context r)
                      <= TimeStampLastInterrupt (isr_context r)
                   /\ TimeStampLastInterrupt (isr_context r) = time (fst er)))
            (combine (four_swipes long_swipe 0)
               (@deliver device_h_10s (four_swipes long_swipe 0)
                  zero_DEVICE_EXTENSION)).
Proof.
  assert (H1 : 1 <= @INPUT_PATTERN_NUM_OF_SWIPES device_h_10s < U32.modulus)
    by (vm_compute; split; congruence).
  assert (H2 : TimeStampInputPatternBegin zero_DEVICE_EXTENSION = 0)
    by reflexivity.
  assert (H3 : 0 <= SECOND) by (vm_compute; congruence).
  assert (H4 : monotoneb SECOND (four_swipes long_swipe 0) = true)
    by (vm_compute; reflexivity).
  split; [exact H1|]. split; [exact H2|]. split; [exact H3|].
  split; [exact H4|].
  exact (@X7_time_stamps_ordered device_h_10s (four_swipes long_swipe 0)
           zero_DEVICE_EXTENSION SECOND H1 H2 H3 H4).
Defined.

Lemma X8_witness :
  1 <= @INPUT_PATTERN_NUM_OF_SWIPES device_h_10s < U32.modulus
  /\ TimeStampInputPatternBegin zero_DEVICE_EXTENSION = 0
  /\ 0 <= SECOND
  /\ monotoneb SECOND (four_swipes long_swipe 0) = true
  /\ Forall (fun er : interrupt * isr_run =>
               isr_calls (snd er) <> [] ->
               (2 * @INPUT_PATTERN_NUM_OF_SWIPES device_h_10s - 1)
               * @SINGLE_SWIPE_MIN_PERIOD device_h_10s
               <= time (fst er) - SECOND)
            (combine (four_swipes long_swipe 0)
               (@deliver device_h_10s (four_swipes long_swipe 0)
                  zero_DEVICE_EXTENSION)).
Proof.
  assert (H1 : 1 <= @INPUT_PATTERN_NUM_OF_SWIPES device_h_10s < U32.modulus)
    by (vm_compute; split; congruence).
  assert (H2 : TimeStampInputPatternBegin zero_DEVICE_EXTENSION = 0)
    by reflexivity.
  assert (H3 : 0 <= SECOND) by (vm_compute; congruence).
  assert (H4 : monotoneb SECOND (four_swipes long_swipe 0) = true)
    by (vm_compute; reflexivity).
  split; [exact H1|]. split; [exact H2|]. split; [exact H3|].
  split; [exact H4|].
  exact (@X8_no_early_bug_check device_h_10s (four_swipes long_swipe 0)
           zero_DEVICE_EXTENSION SECOND H1 H2 H3 H4).
Defined.

Lemma X9_witness :
  1 <= @INPUT_PATTERN_NUM_OF_SWIPES device_h_short_period < U32.modulus
  /\ @INPUT_PATTERN_MAX_PERIOD device_h_short_period
     < (2 * @INPUT_PATTERN_NUM_OF_SWIPES device_h_short_period - 1)
       * @SINGLE_SWIPE_MIN_PERIOD device_h_short_period
  /\ TimeStampInputPatternBegin zero_DEVICE_EXTENSION = 0
  /\ 0 <= SECOND
  /\ monotoneb SECOND (four_swipes long_swipe 1) = true
  /\ Forall quiet
       (@deliver device_h_short_period (four_swipes long_swipe 1)
          zero_DEVICE_EXTENSION)
  /\ length (@deliver device_h_short_period (four_swipes long_swipe 1)
               zero_DEVICE_EXTENSION)
     = length (four_swipes long_swipe 1).
Proof.
  assert (H1 : 1 <= @INPUT_PATTERN_NUM_OF_SWIPES device_h_short_period
               < U32.modulus)
    by (vm_compute; split; congruence).
  assert (H0 : @INPUT_PATTERN_MAX_PERIOD device_h_short_period
               < (2 * @INPUT_PATTERN_NUM_OF_SWIPES device_h_short_period - 1)
                 * @SINGLE_SWIPE_MIN_PERIOD device_h_short_period)
    by (vm_compute; reflexivity).
  assert (H2 : TimeStampInputPatternBegin zero_DEVICE_EXTENSION = 0)
    by reflexivity.
  assert (H3 : 0 <= SECOND) by (vm_compute; congruence).
  assert (H4 : monotoneb SECOND (four_swipes long_swipe 1) = true)
    by (vm_compute; reflexivity).
  split; [exact H1|]. split; [exact H0|]. split; [exact H2|].
  split; [exact H3|]. split; [exact H4|].
  exact (@X9_period_too_short_never_fires device_h_short_period
           (four_swipes long_swipe 1) zero_DEVICE_EXTENSION SECOND
           H1 H0 H2 H3 H4).
Defined.

Lemma X11_witness :
  Forall (fun n => forall d, notified_CbContext n = Some d -> d = 7)
    sample_notifications
  /\ (let '(memory', calls) :=
        @notify_all device_h_10s sample_notifications zero_memory in
      let on :=
        LastProcessedMonitorState (zero_memory 7)
        =? @MONITOR_IS_ON device_h_10s in
      reported on calls
      = (LastProcessedMonitorState (memory' 7) =? @MONITOR_IS_ON device_h_10s)
      /\ no_double_active on calls = true
      /\ Forall (fun c =>
                   c = WdfInterruptReportActive
                         (InterruptObject (zero_memory 7))
                   \/ c = WdfInterruptReportInactive
                            (InterruptObject (zero_memory 7)))
                calls).
Proof.
  assert (H : Forall (fun n => forall d, notified_CbContext n = Some d -> d = 7)
                sample_notifications).
  { unfold sample_notifications.
    repeat constructor; cbn; intros d E; congruence. }
  split; [exact H|].
  exact (@X11_reports_follow_monitor_state device_h_10s sample_notifications
           zero_memory 7 H).
Defined.

Lemma X13_witness :
  @SINGLE_SWIPE_MAX_INTERVAL device_h_15s <= @SINGLE_SWIPE_MAX_PERIOD device_h_15s
  /\ TimeStampInputPatternBegin swiping_context <> 0
  /\ U64.sub (30 * SECOND) (TimeStampLastInterrupt swiping_context)
     > @SINGLE_SWIPE_MAX_PERIOD device_h_15s
  /\ TimeStampInputPatternBegin
       (isr_context
          (@WpCrasherEvtInterruptIsr device_h_15s (30 * SECOND) 0
             swiping_context)) = 0
  /\ quiet (@WpCrasherEvtInterruptIsr device_h_15s (30 * SECOND) 0
              swiping_context)
  /\ NumberOfSwipes
       (isr_context
          (@WpCrasherEvtInterruptIsr device_h_15s (30 * SECOND) 0
             swiping_context))
     = NumberOfSwipes swiping_context.
Proof.
  assert (H1 : @SINGLE_SWIPE_MAX_INTERVAL device_h_15s
               <= @SINGLE_SWIPE_MAX_PERIOD device_h_15s)
    by (vm_compute; discriminate).
  assert (H2 : TimeStampInputPatternBegin swiping_context <> 0)
    by (vm_compute; discriminate).
  assert (H3 : U64.sub (30 * SECOND) (TimeStampLastInterrupt swiping_context)
               > @SINGLE_SWIPE_MAX_PERIOD device_h_15s)
    by (vm_compute; reflexivity).
  split; [exact H1|]. split; [exact H2|]. split; [exact H3|].
  exact (@X13_long_silence_resets device_h_15s (30 * SECOND) 0
           swiping_context H1 H2 H3).
Defined.
